(** * Stepped amortization schedule: a shallow embedding and its properties

    The development embeds [calculate_stepped_amortization_schedule]
    (the notebook section "stepped_amortization_schedule") together with
    the few pieces of Python's [datetime] it calls, and proves what the
    schedule it returns looks like.

    Conventions of the embedding:
    - Python numbers are exact rationals ([Q]); rounding of binary
      floating point is not modelled.  Comparisons are the boolean
      comparisons of [Q], arithmetic is the arithmetic of [Q].
    - Exceptions are values of [exn]; a computation returns [result].
    - A [datetime] is the triple year/month/day (the time of day is
      always midnight here and is left out).  The start date arrives as
      the triple the string denotes; [strptime] checks that it is a date
      of the calendar. *)

From Stdlib Require Import ZArith QArith Qminmax List Bool Lia Lqa.
Import ListNotations.
Local Open Scope Z_scope.

(** ** Exceptions *)

Inductive exn : Type :=
| ValueError      (* strptime: not a calendar date *)
| OverflowError   (* datetime + timedelta out of range *)
| IndexError.     (* list index out of range *)

Inductive result (A : Type) : Type :=
| Ok (a : A)
| Raise (e : exn).
Arguments Ok {A} a.
Arguments Raise {A} e.

Definition bind {A B : Type} (c : result A) (k : A -> result B) : result B :=
  match c with
  | Ok a => k a
  | Raise e => Raise e
  end.

Notation "x <- c ;; k" := (bind c (fun x => k))
  (at level 61, c at next level, right associativity).

(** Python's [seq[i]] for a list or a tuple: a negative index counts from
    the end, anything outside the sequence raises [IndexError]. *)
Definition getitem {A : Type} (l : list A) (i : Z) : result A :=
  let n := Z.of_nat (length l) in
  let j := if i <? 0 then i + n else i in
  if (0 <=? j) && (j <? n) then
    match nth_error l (Z.to_nat j) with
    | Some a => Ok a
    | None => Raise IndexError
    end
  else Raise IndexError.

Definition len {A : Type} (l : list A) : Z := Z.of_nat (length l).

(** ** The calendar of [datetime] *)

Module Calendar.

Record datetime : Type := mkdatetime { year : Z; month : Z; day : Z }.

Definition MAXORDINAL : Z := 3652059.

Definition is_leap (y : Z) : bool :=
  (y mod 4 =? 0) && (negb (y mod 100 =? 0) || (y mod 400 =? 0)).

Definition DAYS_IN_MONTH (m : Z) : Z :=
  match m with
  | 1 => 31 | 2 => 28 | 3 => 31 | 4 => 30 | 5 => 31 | 6 => 30
  | 7 => 31 | 8 => 31 | 9 => 30 | 10 => 31 | 11 => 30 | 12 => 31
  | _ => -1
  end.

Definition DAYS_BEFORE_MONTH (m : Z) : Z :=
  match m with
  | 1 => 0 | 2 => 31 | 3 => 59 | 4 => 90 | 5 => 120 | 6 => 151
  | 7 => 181 | 8 => 212 | 9 => 243 | 10 => 273 | 11 => 304 | 12 => 334
  | _ => -1
  end.

Definition days_in_month (y m : Z) : Z :=
  if (m =? 2) && is_leap y then 29 else DAYS_IN_MONTH m.

Definition days_before_year (y : Z) : Z :=
  let y := y - 1 in y * 365 + y / 4 - y / 100 + y / 400.

Definition days_before_month (y m : Z) : Z :=
  DAYS_BEFORE_MONTH m + (if (m >? 2) && is_leap y then 1 else 0).

Definition ymd2ord (y m d : Z) : Z :=
  days_before_year y + days_before_month y m + d.

Definition DI400Y : Z := 146097.
Definition DI100Y : Z := 36524.
Definition DI4Y : Z := 1461.

Definition ord2ymd (n : Z) : Z * Z * Z :=
  let n := n - 1 in
  let n400 := n / DI400Y in
  let n := n mod DI400Y in
  let y := n400 * 400 + 1 in
  let n100 := n / DI100Y in
  let n := n mod DI100Y in
  let n4 := n / DI4Y in
  let n := n mod DI4Y in
  let n1 := n / 365 in
  let n := n mod 365 in
  let y := y + n100 * 100 + n4 * 4 + n1 in
  if (n1 =? 4) || (n100 =? 4) then (y - 1, 12, 31)
  else
    let leapyear := (n1 =? 3) && (negb (n4 =? 24) || (n100 =? 3)) in
    let m := Z.shiftr (n + 50) 5 in
    let preceding :=
      DAYS_BEFORE_MONTH m + (if (m >? 2) && leapyear then 1 else 0) in
    if preceding >? n then
      let m := m - 1 in
      let preceding :=
        preceding
        - (DAYS_IN_MONTH m + (if (m =? 2) && leapyear then 1 else 0)) in
      (y, m, n - preceding + 1)
    else (y, m, n - preceding + 1).

Definition toordinal (d : datetime) : Z := ymd2ord (year d) (month d) (day d).

Definition fromordinal (n : Z) : datetime :=
  let '(y, m, d) := ord2ymd n in mkdatetime y m d.

(** [datetime.strptime(s, "%Y-%m-%d")], on the triple [s] denotes. *)
Definition strptime (s : Z * Z * Z) : result datetime :=
  let '(y, m, d) := s in
  if (1 <=? y) && (y <=? 9999) && (1 <=? m) && (m <=? 12)
     && (1 <=? d) && (d <=? days_in_month y m)
  then Ok (mkdatetime y m d)
  else Raise ValueError.

(** [d + timedelta(days=k)]. *)
Definition add_days (d : datetime) (k : Z) : result datetime :=
  let n := toordinal d + k in
  if (0 <? n) && (n <=? MAXORDINAL) then Ok (fromordinal n)
  else Raise OverflowError.

(** [d.replace(day=k)], for a [k] that exists in the month of [d]. *)
Definition replace_day (d : datetime) (k : Z) : datetime :=
  mkdatetime (year d) (month d) k.

(** [(a - b).days]. *)
Definition sub_days (a b : datetime) : Z := toordinal a - toordinal b.

End Calendar.
Import Calendar.

(** ** The schedule *)

(** [a > b] and [a <= b] on Python numbers. *)
Definition Qgt_bool (a b : Q) : bool := negb (Qle_bool a b).

(** One record of the schedule: the dictionary appended per period, a
    field per key ('date', 'days', 'day', 'base rate', 'margin',
    'all rate', 'interest', 'principal', 'bill type', 'balance'). *)
Record row : Type := mkrow {
  r_date : datetime;
  r_days : Z;
  r_day : datetime;
  r_base_rate : Q;
  r_margin : Q;
  r_all_rate : Q;
  r_interest : Q;
  r_principal : Q;
  r_bill_type : Q;
  r_balance : Q
}.

(** The local variables the loops update. *)
Record state : Type := mkstate {
  schedule : list row;
  remaining_balance : Q;
  payment_number : Z;
  payment_date : datetime;
  monthly_installment : Q
}.

Section Engine.

Variables (principal annual_interest_rate : Q) (years : Z)
          (monthly_days : list Z) (start_date : Z * Z * Z)
          (balloon_payment bill_type : Q)
          (annual_installment_increases : list Q).

(** [[(annual_interest_rate / 100) * (days / 365) for days in monthly_days]] *)
Definition monthly_interest_rates : list Q :=
  map (fun days => (annual_interest_rate / 100) * (inject_Z days / 365))%Q
      monthly_days.

(** The record appended in the month loop. *)
Definition regular_row (st : state) (interest_payment principal_payment : Q)
  : row :=
  let payment_date := payment_date st in
  {| r_date := payment_date;
     r_days := sub_days payment_date (replace_day payment_date 1) + 1;
     r_day := payment_date;
     r_base_rate := annual_interest_rate;
     r_margin := 0;
     r_all_rate := annual_interest_rate;
     r_interest := interest_payment;
     r_principal := 0;
     r_bill_type := monthly_installment st;
     r_balance := (remaining_balance st - principal_payment)%Q |}.

(** [for month in range(1, 13)]: [months] iterations are left.  A [break]
    returns the state as it is. *)
Fixpoint month_loop (months : nat) (st : state) : result state :=
  match months with
  | O => Ok st
  | S months' =>
    if payment_number st >? len monthly_days then Ok st
    else if Qle_bool (remaining_balance st) balloon_payment then Ok st
    else
      rate <- getitem monthly_interest_rates (payment_number st - 1) ;;
      let interest_payment := (remaining_balance st * rate)%Q in
      let principal_payment := (monthly_installment st - interest_payment)%Q in
      let principal_payment :=
        if Qgt_bool principal_payment (remaining_balance st)
        then remaining_balance st else principal_payment in
      let schedule' :=
        schedule st ++ [regular_row st interest_payment principal_payment] in
      let remaining_balance' :=
        (remaining_balance st - principal_payment)%Q in
      payment_date' <- add_days (payment_date st) 30 ;;
      month_loop months'
        {| schedule := schedule';
           remaining_balance := remaining_balance';
           payment_number := payment_number st + 1;
           payment_date := payment_date';
           monthly_installment := monthly_installment st |}
  end.

(** The step-up that closes the cycle of [year]. *)
Definition step_up (year : Z) (st : state) : result state :=
  if year <=? len annual_installment_increases then
    increase_percentage <- getitem annual_installment_increases (year - 1) ;;
    Ok {| schedule := schedule st;
          remaining_balance := remaining_balance st;
          payment_number := payment_number st;
          payment_date := payment_date st;
          monthly_installment :=
            (monthly_installment st * (1 + increase_percentage / 100))%Q |}
  else Ok st.

(** [for year in range(1, years + 1)]: [n] cycles are left, the next one
    is [year]. *)
Fixpoint year_loop (n : nat) (year : Z) (st : state) : result state :=
  match n with
  | O => Ok st
  | S n' =>
    st1 <- month_loop 12 st ;;
    st2 <- step_up year st1 ;;
    year_loop n' (year + 1) st2
  end.

(** The state before the first cycle. *)
Definition initial_state : result state :=
  start <- strptime start_date ;;
  payment_date <- add_days start 30 ;;
  Ok {| schedule := [];
        remaining_balance := principal;
        payment_number := 1;
        payment_date := payment_date;
        monthly_installment := bill_type |}.

(** Everything up to the comment "Add the balloon payment at the end":
    the state when both loops are over. *)
Definition regular_amortization : result state :=
  st0 <- initial_state ;;
  year_loop (Z.to_nat years) 1 st0.

(** The record appended after the loops. *)
Definition balloon_row (st : state) (interest_payment : Q) : row :=
  let payment_date := payment_date st in
  {| r_date := payment_date;
     r_days := sub_days payment_date (replace_day payment_date 1) + 1;
     r_day := payment_date;
     r_base_rate := annual_interest_rate;
     r_margin := 0;
     r_all_rate := annual_interest_rate;
     r_interest := interest_payment;
     r_principal := 0;
     r_bill_type := monthly_installment st;
     r_balance := 0 |}.

(** [if remaining_balance > 0: ...] and the return. *)
Definition balloon_step (st : state) : result (list row) :=
  if Qgt_bool (remaining_balance st) 0 then
    rate <- getitem monthly_interest_rates (payment_number st - 1) ;;
    let interest_payment := (remaining_balance st * rate)%Q in
    Ok (schedule st ++ [balloon_row st interest_payment])
  else Ok (schedule st).

(** The function.  The data frame it returns is the list of its rows. *)
Definition calculate_stepped_amortization_schedule : result (list row) :=
  st <- regular_amortization ;;
  balloon_step st.

End Engine.


(** ** Vocabulary for the statements *)

Section Vocabulary.

Variables (principal annual_interest_rate : Q) (monthly_days : list Z)
          (start : datetime) (balloon_payment bill_type : Q)
          (annual_installment_increases : list Q).

(** The two [break] tests of the month loop. *)
Definition stopped (st : state) : Prop :=
  (payment_number st >? len monthly_days) = true
  \/ Qle_bool (remaining_balance st) balloon_payment = true.

(** The period rate of a day count. *)
Definition period_rate (days : Z) : Q :=
  ((annual_interest_rate / 100) * (inject_Z days / 365))%Q.

(** The principal part of an installment: what the installment leaves
    after interest, and never more than the balance. *)
Definition capped (balance installment interest : Q) : Q :=
  if Qgt_bool (installment - interest) balance then balance
  else (installment - interest)%Q.

(** The installment after [y] cycles have been closed. *)
Definition stepped_installment (y : nat) : Q :=
  fold_left (fun m increase_percentage =>
               m * (1 + increase_percentage / 100))%Q
            (firstn y annual_installment_increases) bill_type.

(** The balance after the rows [rows], starting from [b]. *)
Definition last_balance (b : Q) (rows : list row) : Q :=
  match rev rows with
  | [] => b
  | e :: _ => r_balance e
  end.

(** The balance before row [k] of [rows]. *)
Definition balance_before (rows : list row) (k : nat) : Q :=
  last_balance principal (firstn k rows).

(** What the [k]-th regular row (from 0) records, when the balance before
    it is [b]. *)
Definition row_ok (b : Q) (k : nat) (e : row) : Prop :=
  exists days,
    nth_error monthly_days k = Some days
    /\ r_date e = fromordinal (toordinal start + 30 * (Z.of_nat k + 1))
    /\ r_day e = r_date e
    /\ r_days e = day (r_date e)
    /\ r_base_rate e = annual_interest_rate
    /\ r_all_rate e = annual_interest_rate
    /\ r_margin e = 0%Q
    /\ r_principal e = 0%Q
    /\ r_bill_type e = stepped_installment (k / 12)
    /\ r_interest e = (b * period_rate days)%Q
    /\ r_balance e
       = (b - capped b (r_bill_type e) (r_interest e))%Q
    /\ Qle_bool b balloon_payment = false.

Fixpoint rows_ok (b : Q) (k : nat) (rows : list row) : Prop :=
  match rows with
  | [] => True
  | e :: rows' => row_ok b k e /\ rows_ok (r_balance e) (S k) rows'
  end.

(** The loop invariant: [y] cycles are closed and [done] months of the
    next one are over. *)
Definition loop_inv (y done : nat) (st : state) : Prop :=
  rows_ok principal 0 (schedule st)
  /\ remaining_balance st = last_balance principal (schedule st)
  /\ payment_number st = 1 + len (schedule st)
  /\ payment_date st
     = fromordinal (toordinal start + 30 * payment_number st)
  /\ monthly_installment st = stepped_installment y
  /\ (length (schedule st) <= length monthly_days)%nat
  /\ (length (schedule st) = (12 * y + done)%nat
      \/ (stopped st /\ (length (schedule st) <= 12 * y + done)%nat)).

End Vocabulary.

(** [schedule['principal'].sum()]: the total of the 'principal' column. *)
Definition principal_total (rows : list row) : Q :=
  fold_left (fun total e => total + r_principal e)%Q rows 0%Q.

(** * Properties *)

(** ** The calendar: an ordinal and its date *)

Module CalendarFacts.

Lemma is_leap_cycle (n400 n100 n4 n1 : Z) :
  0 <= n100 <= 3 -> 0 <= n4 <= 24 -> 0 <= n1 <= 3 ->
  is_leap (n400 * 400 + 1 + n100 * 100 + n4 * 4 + n1)
  = (n1 =? 3) && (negb (n4 =? 24) || (n100 =? 3)).
Proof.
  intros H100 H4 H1. unfold is_leap.
  repeat match goal with
         | |- context [?a =? ?b] => destruct (Z.eqb_spec a b)
         end; simpl; try reflexivity; exfalso;
    Z.div_mod_to_equations; lia.
Qed.

Lemma days_before_year_cycle (n400 n100 n4 n1 : Z) :
  0 <= n100 <= 3 -> 0 <= n4 <= 24 -> 0 <= n1 <= 3 ->
  days_before_year (n400 * 400 + 1 + n100 * 100 + n4 * 4 + n1)
  = 146097 * n400 + 36524 * n100 + 1461 * n4 + 365 * n1.
Proof.
  intros H100 H4 H1. unfold days_before_year.
  Z.div_mod_to_equations. lia.
Qed.

(** The month and day found from the day [r] of the year (from 0). *)
Lemma month_of_year_day (b : bool) (r : Z) :
  0 <= r < 365 ->
  let m := Z.shiftr (r + 50) 5 in
  let preceding := DAYS_BEFORE_MONTH m + (if (m >? 2) && b then 1 else 0) in
  let m' := if preceding >? r then m - 1 else m in
  let preceding' :=
    if preceding >? r
    then preceding - (DAYS_IN_MONTH (m - 1)
                      + (if (m - 1 =? 2) && b then 1 else 0))
    else preceding in
  1 <= m' <= 12 /\
  DAYS_BEFORE_MONTH m' + (if (m' >? 2) && b then 1 else 0) = preceding' /\
  0 <= r - preceding' < DAYS_IN_MONTH m' + (if (m' =? 2) && b then 1 else 0).
Proof.
  intros Hr. rewrite Z.shiftr_div_pow2 by lia.
  change (2 ^ 5) with 32.
  assert (Hm : 1 <= (r + 50) / 32 <= 12) by (Z.div_mod_to_equations; lia).
  assert (Hq : 32 * ((r + 50) / 32) <= r + 50 < 32 * ((r + 50) / 32) + 32)
    by (Z.div_mod_to_equations; lia).
  set (m := (r + 50) / 32) in *. clearbody m.
  assert (Hcases : m = 1 \/ m = 2 \/ m = 3 \/ m = 4 \/ m = 5 \/ m = 6 \/ m = 7
                   \/ m = 8 \/ m = 9 \/ m = 10 \/ m = 11 \/ m = 12) by lia.
  destruct b;
    repeat (destruct Hcases as [-> | Hcases]); try subst m; cbn -[Z.gtb Z.sub];
    match goal with
    | |- context [?a >? r] => destruct (Z.gtb_spec a r) as [Hlt | Hge]
    end; cbn in *; lia.
Qed.

Lemma ymd2ord_ord2ymd (n : Z) :
  let '(y, m, d) := ord2ymd n in
  ymd2ord y m d = n /\ 1 <= m <= 12 /\ 1 <= d <= days_in_month y m.
Proof.
  unfold ord2ymd, DI400Y, DI100Y, DI4Y.
  pose proof (Z.div_mod (n - 1) 146097 ltac:(lia)) as E400.
  pose proof (Z.mod_pos_bound (n - 1) 146097 ltac:(lia)) as B400.
  set (n400 := (n - 1) / 146097) in *. set (a := (n - 1) mod 146097) in *.
  pose proof (Z.div_mod a 36524 ltac:(lia)) as E100.
  pose proof (Z.mod_pos_bound a 36524 ltac:(lia)) as B100.
  set (n100 := a / 36524) in *. set (b := a mod 36524) in *.
  pose proof (Z.div_mod b 1461 ltac:(lia)) as E4.
  pose proof (Z.mod_pos_bound b 1461 ltac:(lia)) as B4.
  set (n4 := b / 1461) in *. set (c := b mod 1461) in *.
  pose proof (Z.div_mod c 365 ltac:(lia)) as E1.
  pose proof (Z.mod_pos_bound c 365 ltac:(lia)) as B1.
  set (n1 := c / 365) in *. set (r := c mod 365) in *.
  clearbody n400 a n100 b n4 c n1 r.
  assert (H100 : 0 <= n100 <= 4) by lia.
  assert (H4 : 0 <= n4 <= 24) by lia.
  assert (H1 : 0 <= n1 <= 4) by lia.
  destruct (Z.eqb_spec n1 4) as [En1 | Nn1]; simpl orb.
  - (* the last day of a four-year cycle *)
    assert (r = 0) by lia. assert (0 <= n100 <= 3) by lia.
    replace (n400 * 400 + 1 + n100 * 100 + n4 * 4 + n1 - 1)
      with (n400 * 400 + 1 + n100 * 100 + n4 * 4 + 3) by lia.
    unfold ymd2ord, days_before_month, days_in_month.
    rewrite days_before_year_cycle, is_leap_cycle by lia.
    assert (n4 <> 24) by lia.
    destruct (Z.eqb_spec n4 24); [lia|]. cbn -[Z.mul Z.add Z.sub]. lia.
  - destruct (Z.eqb_spec n100 4) as [En100 | Nn100].
    + (* the last day of a 400-year cycle *)
      assert (b = 0) by lia. assert (n4 = 0) by lia. assert (n1 = 0) by lia.
      subst n100 n4 n1.
      replace (n400 * 400 + 1 + 4 * 100 + 0 * 4 + 0 - 1)
        with (n400 * 400 + 1 + 3 * 100 + 24 * 4 + 3) by lia.
      unfold ymd2ord, days_before_month, days_in_month.
      rewrite days_before_year_cycle, is_leap_cycle by lia.
      cbn -[Z.mul Z.add Z.sub]. lia.
    + assert (H100' : 0 <= n100 <= 3) by lia.
      assert (H1' : 0 <= n1 <= 3) by lia.
      set (leapyear := (n1 =? 3) && (negb (n4 =? 24) || (n100 =? 3))).
      pose proof (month_of_year_day leapyear r B1) as Hm. cbv zeta in Hm.
      set (y := n400 * 400 + 1 + n100 * 100 + n4 * 4 + n1).
      assert (Hleap : is_leap y = leapyear)
        by (apply is_leap_cycle; assumption).
      assert (Hdby : days_before_year y
                     = 146097 * n400 + 36524 * n100 + 1461 * n4 + 365 * n1)
        by (apply days_before_year_cycle; assumption).
      set (m := Z.shiftr (r + 50) 5) in *.
      set (preceding :=
             DAYS_BEFORE_MONTH m + (if (m >? 2) && leapyear then 1 else 0)) in *.
      destruct (preceding >? r);
        unfold ymd2ord, days_before_month, days_in_month;
        rewrite Hleap, Hdby; destruct Hm as (Hm12 & Hp & Hd);
        (split; [lia |]); (split; [lia |]);
        match goal with
        | |- context [if ?t then 29 else _] =>
            destruct t eqn:Et; [| lia]
        end.
      * apply andb_prop in Et as [Em _]. apply Z.eqb_eq in Em.
        rewrite Em in *. change (DAYS_IN_MONTH 2) with 28 in *.
        cbn in Hd. lia.
      * apply andb_prop in Et as [Em _]. apply Z.eqb_eq in Em.
        rewrite Em in *. change (DAYS_IN_MONTH 2) with 28 in *.
        cbn in Hd. lia.
Qed.

Lemma toordinal_fromordinal (n : Z) : toordinal (fromordinal n) = n.
Proof.
  unfold toordinal, fromordinal.
  pose proof (ymd2ord_ord2ymd n) as H.
  destruct (ord2ymd n) as [[y m] d]. simpl. apply H.
Qed.

End CalendarFacts.

(** ** Sequences and dates *)

Lemma getitem_in_range {A : Type} (l : list A) (i : Z) :
  0 <= i < len l ->
  exists a, getitem l i = Ok a /\ nth_error l (Z.to_nat i) = Some a.
Proof.
  unfold getitem, len. intros Hi.
  destruct (Z.ltb_spec i 0) as [Hneg | _]; [lia |].
  destruct (Z.leb_spec 0 i) as [_ | Hneg]; [| lia].
  destruct (Z.ltb_spec i (Z.of_nat (length l))) as [_ | Hbig]; [| lia].
  simpl. destruct (nth_error l (Z.to_nat i)) as [a |] eqn:E.
  - exists a. split; reflexivity.
  - apply nth_error_None in E. lia.
Qed.

Lemma getitem_past_end {A : Type} (l : list A) (i : Z) :
  len l <= i -> getitem l i = Raise IndexError.
Proof.
  unfold getitem, len. intros Hi.
  destruct (Z.ltb_spec i 0) as [Hneg | _]; [lia |].
  destruct (Z.ltb_spec i (Z.of_nat (length l))) as [Hsmall | _]; [lia |].
  rewrite andb_false_r. reflexivity.
Qed.

Lemma days_before_year_nonneg (y : Z) : 1 <= y -> 0 <= days_before_year y.
Proof. unfold days_before_year. intros Hy. Z.div_mod_to_equations. lia. Qed.

Lemma strptime_ordinal (s : Z * Z * Z) (d : datetime) :
  strptime s = Ok d -> 1 <= toordinal d.
Proof.
  destruct s as [[y m] k]. unfold strptime.
  destruct (_ && _) eqn:E; [| discriminate].
  intros [= <-].
  repeat (apply andb_prop in E as [E ?]).
  unfold toordinal, ymd2ord, days_before_month. simpl.
  pose proof (days_before_year_nonneg y ltac:(lia)).
  assert (0 <= DAYS_BEFORE_MONTH m).
  { assert (Hm : m = 1 \/ m = 2 \/ m = 3 \/ m = 4 \/ m = 5 \/ m = 6 \/ m = 7
                 \/ m = 8 \/ m = 9 \/ m = 10 \/ m = 11 \/ m = 12) by lia.
    repeat (destruct Hm as [-> | Hm]); try subst m; simpl; lia. }
  destruct ((m >? 2) && is_leap y); lia.
Qed.

Lemma add_days_in_range (d : datetime) (k : Z) :
  0 < toordinal d + k <= MAXORDINAL ->
  add_days d k = Ok (fromordinal (toordinal d + k)).
Proof.
  intros H. unfold add_days.
  destruct (Z.ltb_spec 0 (toordinal d + k)); [| lia].
  destruct (Z.leb_spec (toordinal d + k) MAXORDINAL); [| lia].
  reflexivity.
Qed.

(** [(d - d.replace(day=1)).days + 1] is the day of the month of [d]. *)
Lemma day_of_month (d : datetime) :
  sub_days d (replace_day d 1) + 1 = day d.
Proof. unfold sub_days, replace_day, toordinal, ymd2ord. simpl. lia. Qed.

(** ** Rows *)

Section RowFacts.

Variables (principal annual_interest_rate : Q) (monthly_days : list Z)
          (start : datetime) (balloon_payment bill_type : Q)
          (annual_installment_increases : list Q).

Local Abbreviation rows_ok :=
  (rows_ok annual_interest_rate monthly_days start balloon_payment bill_type
           annual_installment_increases).
Local Abbreviation row_ok :=
  (row_ok annual_interest_rate monthly_days start balloon_payment bill_type
          annual_installment_increases).

Lemma last_balance_app (b : Q) (rows : list row) (e : row) :
  last_balance b (rows ++ [e]) = r_balance e.
Proof. unfold last_balance. rewrite rev_app_distr. reflexivity. Qed.

Lemma last_balance_cons (b : Q) (e : row) (rows : list row) :
  last_balance b (e :: rows) = last_balance (r_balance e) rows.
Proof.
  unfold last_balance. simpl.
  destruct (rev rows) as [| e' tl] eqn:E; reflexivity.
Qed.

Lemma rows_ok_app (b : Q) (k : nat) (rows : list row) (e : row) :
  rows_ok b k rows ->
  row_ok (last_balance b rows) (k + length rows) e ->
  rows_ok b k (rows ++ [e]).
Proof.
  revert b k. induction rows as [| e0 rows IH]; intros b k Hrows He.
  - simpl in *. rewrite Nat.add_0_r in He. split; [exact He | exact I].
  - simpl in *. destruct Hrows as [H0 Hrows]. split; [exact H0 |].
    apply IH; [exact Hrows |].
    rewrite last_balance_cons in He.
    replace (S k + length rows)%nat with (k + S (length rows))%nat by lia.
    exact He.
Qed.

Lemma rows_ok_nth (b : Q) (k0 : nat) (rows : list row) (k : nat) (e : row) :
  rows_ok b k0 rows ->
  nth_error rows k = Some e ->
  row_ok (last_balance b (firstn k rows)) (k0 + k) e.
Proof.
  revert b k0 k. induction rows as [| e0 rows IH]; intros b k0 k Hrows Hk.
  - destruct k; discriminate.
  - destruct Hrows as [H0 Hrows]. destruct k as [| k].
    + injection Hk as <-. rewrite Nat.add_0_r. exact H0.
    + simpl in Hk. simpl firstn. rewrite last_balance_cons.
      replace (k0 + S k)%nat with (S k0 + k)%nat by lia.
      apply IH; assumption.
Qed.

End RowFacts.

(** ** The loops *)

Section LoopFacts.

Variables (principal annual_interest_rate : Q) (years : Z)
          (monthly_days : list Z) (start_date : Z * Z * Z)
          (balloon_payment bill_type : Q)
          (annual_installment_increases : list Q).
Variable start : datetime.
Hypothesis start_parsed : strptime start_date = Ok start.
Hypothesis dates_in_range :
  toordinal start + 30 * (len monthly_days + 1) <= MAXORDINAL.

Local Abbreviation months :=
  (month_loop annual_interest_rate monthly_days balloon_payment).
Local Abbreviation cycles :=
  (year_loop annual_interest_rate monthly_days balloon_payment
             annual_installment_increases).
Local Abbreviation close_cycle := (step_up annual_installment_increases).
Local Abbreviation inv :=
  (loop_inv principal annual_interest_rate monthly_days start balloon_payment
            bill_type annual_installment_increases).
Local Abbreviation installment_after :=
  (stepped_installment bill_type annual_installment_increases).

Lemma rate_of_period (k : nat) (rate : Q) :
  nth_error (monthly_interest_rates annual_interest_rate monthly_days) k
  = Some rate ->
  exists days, nth_error monthly_days k = Some days
               /\ rate = period_rate annual_interest_rate days.
Proof.
  unfold monthly_interest_rates. rewrite nth_error_map.
  destruct (nth_error monthly_days k) as [days |]; [| discriminate].
  intros [= <-]. exists days. split; reflexivity.
Qed.

Lemma month_loop_inv (y m done : nat) (st : state) :
  (done + m <= 12)%nat ->
  inv y done st ->
  exists st', months m st = Ok st' /\ inv y (done + m) st'.
Proof.
  revert done st. induction m as [| m IH]; intros done st Hm Hinv.
  - exists st. rewrite Nat.add_0_r. split; [reflexivity | exact Hinv].
  - destruct Hinv as (Hrows & Hbal & Hpn & Hdate & Hinst & Hlen & Hcount).
    simpl.
    destruct (payment_number st >? len monthly_days) eqn:Eend.
    { exists st. split; [reflexivity |].
      repeat split; try assumption.
      right. split; [left; exact Eend |].
      destruct Hcount as [-> | [_ Hle]]; lia. }
    destruct (Qle_bool (remaining_balance st) balloon_payment) eqn:Ebal.
    { exists st. split; [reflexivity |].
      repeat split; try assumption.
      right. split; [right; exact Ebal |].
      destruct Hcount as [-> | [_ Hle]]; lia. }
    assert (Hcount' : length (schedule st) = (12 * y + done)%nat).
    { destruct Hcount as [E | [[Hs | Hs] _]]; [exact E | congruence ..]. }
    rewrite Z.gtb_ltb in Eend. apply Z.ltb_ge in Eend. unfold len in *.
    destruct (getitem_in_range
                (monthly_interest_rates annual_interest_rate monthly_days)
                (payment_number st - 1)) as (rate & -> & Hrate).
    { unfold len, monthly_interest_rates. rewrite length_map. lia. }
    replace (Z.to_nat (payment_number st - 1)) with (length (schedule st))
      in Hrate by lia.
    apply rate_of_period in Hrate as (days & Hdays & ->).
    assert (Hord : toordinal (payment_date st)
                   = toordinal start + 30 * payment_number st)
      by (rewrite Hdate; apply CalendarFacts.toordinal_fromordinal).
    rewrite (add_days_in_range (payment_date st) 30).
    2:{ pose proof (strptime_ordinal _ _ start_parsed). lia. }
    cbn [bind].
    match goal with
    | |- exists st', months m ?s = _ /\ _ =>
        destruct (IH (S done) s ltac:(lia)) as (st' & Hrun & Hinv')
    end.
    + split; [| split; [| split; [| split; [| split; [| split]]]]];
        cbn [schedule remaining_balance payment_number payment_date
             monthly_installment].
      * apply rows_ok_app; [exact Hrows |].
        exists days. cbn [regular_row r_date r_day r_days r_base_rate
                            r_all_rate r_margin r_principal r_bill_type
                            r_interest r_balance].
        rewrite <- Hbal.
        split; [exact Hdays |].
        split; [rewrite Hdate; f_equal; lia |].
        split; [reflexivity |].
        split; [apply day_of_month |].
        do 4 (split; [reflexivity |]).
        split.
        { rewrite Hinst, Hcount', Nat.add_0_l. f_equal.
          apply Nat.div_unique with (r := done); lia. }
        split; [reflexivity |].
        split; [reflexivity | exact Ebal].
      * rewrite last_balance_app. reflexivity.
      * unfold len. rewrite length_app. cbn [length]. lia.
      * rewrite Hord. f_equal; lia.
      * exact Hinst.
      * rewrite length_app. cbn [length]. lia.
      * left. rewrite length_app. cbn [length]. lia.
    + exists st'. split; [exact Hrun |].
      replace (done + S m)%nat with (S done + m)%nat by lia. exact Hinv'.
Qed.

Lemma firstn_snoc {A : Type} (l : list A) (k : nat) (a : A) :
  nth_error l k = Some a -> firstn (S k) l = firstn k l ++ [a].
Proof.
  revert k. induction l as [| x l IH]; intros [| k] H;
    try discriminate.
  - injection H as ->. reflexivity.
  - simpl in H. cbn [firstn app]. rewrite <- IH by exact H. reflexivity.
Qed.

Lemma stepped_installment_next (y : nat) (increase_percentage : Q) :
  nth_error annual_installment_increases y = Some increase_percentage ->
  installment_after (S y)
  = (installment_after y * (1 + increase_percentage / 100))%Q.
Proof.
  intros H. unfold stepped_installment.
  rewrite (firstn_snoc _ _ _ H), fold_left_app. reflexivity.
Qed.

Lemma stepped_installment_last (y : nat) :
  (length annual_installment_increases <= y)%nat ->
  installment_after (S y) = installment_after y.
Proof.
  intros H. unfold stepped_installment.
  rewrite !firstn_all2 by lia. reflexivity.
Qed.

Lemma step_up_inv (y : nat) (st : state) :
  inv y 12 st ->
  exists st', close_cycle (Z.of_nat y + 1) st = Ok st' /\ inv (S y) 0 st'.
Proof.
  intros (Hrows & Hbal & Hpn & Hdate & Hinst & Hlen & Hcount).
  assert (Hcount' :
            length (schedule st) = (12 * S y + 0)%nat
            \/ (stopped monthly_days balloon_payment st
                /\ (length (schedule st) <= 12 * S y + 0)%nat)).
  { destruct Hcount as [E | [Hs Hle]]; [left | right; split]; try lia.
    exact Hs. }
  unfold step_up.
  destruct (Z.leb_spec (Z.of_nat y + 1) (len annual_installment_increases))
    as [Hin | Hout].
  - destruct (getitem_in_range annual_installment_increases
                               (Z.of_nat y + 1 - 1)) as (inc & -> & Hinc);
      [lia |].
    replace (Z.to_nat (Z.of_nat y + 1 - 1)) with y in Hinc by lia.
    eexists. split; [reflexivity |].
    split; [| split; [| split; [| split; [| split; [| split]]]]];
      cbn [schedule remaining_balance payment_number payment_date
           monthly_installment]; try assumption.
    rewrite (stepped_installment_next _ _ Hinc), Hinst. reflexivity.
  - exists st. split; [reflexivity |].
    split; [| split; [| split; [| split; [| split; [| split]]]]];
      try assumption.
    rewrite stepped_installment_last, Hinst; [reflexivity |].
    unfold len in Hout. lia.
Qed.

Lemma year_loop_inv (n y : nat) (st : state) :
  inv y 0 st ->
  exists st', cycles n (Z.of_nat y + 1) st = Ok st'
              /\ inv (y + n) 0 st'.
Proof.
  revert y st. induction n as [| n IH]; intros y st Hinv.
  - exists st. rewrite Nat.add_0_r. split; [reflexivity | exact Hinv].
  - cbn [year_loop].
    destruct (month_loop_inv y 12 0 st ltac:(lia) Hinv) as (st1 & -> & H1).
    destruct (step_up_inv y st1 H1) as (st2 & E2 & H2).
    cbn [bind]. rewrite E2. cbn [bind].
    destruct (IH (S y) st2 H2) as (st' & Hrun & Hinv').
    exists st'. replace (Z.of_nat y + 1 + 1) with (Z.of_nat (S y) + 1) by lia.
    split; [exact Hrun |].
    replace (y + S n)%nat with (S y + n)%nat by lia. exact Hinv'.
Qed.

(** The loops run to their end, and leave a state that satisfies the
    invariant for [years] closed cycles. *)
Lemma regular_amortization_inv :
  exists st,
    regular_amortization principal annual_interest_rate years monthly_days
      start_date balloon_payment bill_type annual_installment_increases
    = Ok st
    /\ inv (Z.to_nat years) 0 st.
Proof.
  unfold regular_amortization, initial_state. rewrite start_parsed.
  cbn [bind].
  rewrite (add_days_in_range start 30).
  2:{ pose proof (strptime_ordinal _ _ start_parsed). unfold len in *. lia. }
  cbn [bind].
  apply (year_loop_inv (Z.to_nat years) 0).
  split; [| split; [| split; [| split; [| split; [| split]]]]];
    cbn [schedule remaining_balance payment_number payment_date
         monthly_installment length].
  - exact I.
  - reflexivity.
  - reflexivity.
  - f_equal; lia.
  - reflexivity.
  - lia.
  - left. reflexivity.
Qed.

End LoopFacts.

(** ** Regular rows and the day counts *)

(** C8.  The loops always run to their end, and the regular rows they
    leave are at most [min(years * 12, len(monthly_days))]; the [k]-th
    regular row (from 0) is computed from the [k]-th day count, which
    exists: its interest is the balance before it times the period rate of
    that day count.  The function then goes on with the balloon step on
    that state. *)
Theorem C8_regular_rows_follow_day_counts
    (principal annual_interest_rate : Q) (years : Z) (monthly_days : list Z)
    (start_date : Z * Z * Z) (balloon_payment bill_type : Q)
    (annual_installment_increases : list Q) (start : datetime) :
  strptime start_date = Ok start ->
  toordinal start + 30 * (len monthly_days + 1) <= MAXORDINAL ->
  0 <= years ->
  exists st,
    regular_amortization principal annual_interest_rate years monthly_days
      start_date balloon_payment bill_type annual_installment_increases
    = Ok st
    /\ calculate_stepped_amortization_schedule principal annual_interest_rate
         years monthly_days start_date balloon_payment bill_type
         annual_installment_increases
       = balloon_step annual_interest_rate monthly_days st
    /\ len (schedule st) <= Z.min (years * 12) (len monthly_days)
    /\ forall k e,
         nth_error (schedule st) k = Some e ->
         exists days,
           nth_error monthly_days k = Some days
           /\ r_interest e
              = (balance_before principal (schedule st) k
                 * period_rate annual_interest_rate days)%Q.
Proof.
  intros Hstart Hrange Hyears.
  destruct (regular_amortization_inv principal annual_interest_rate years
              monthly_days start_date balloon_payment bill_type
              annual_installment_increases start Hstart Hrange)
    as (st & Hrun & Hrows & _ & _ & _ & _ & Hlen & Hcount).
  exists st. split; [exact Hrun |]. split.
  { unfold calculate_stepped_amortization_schedule. rewrite Hrun.
    reflexivity. }
  split.
  { unfold len. destruct Hcount as [E | [_ Hle]]; lia. }
  intros k e Hk.
  destruct (rows_ok_nth _ _ _ _ _ _ _ _ _ _ _ Hrows Hk)
    as (days & Hdays & _ & _ & _ & _ & _ & _ & _ & _ & Hint & _).
  exists days. split; [exact Hdays | exact Hint].
Qed.

Lemma C8_witness :
  exists st,
    regular_amortization 1000 12 1 [30; 31; 30] (2026, 6, 15) 500 300 [5%Q]
    = Ok st
    /\ calculate_stepped_amortization_schedule 1000 12 1 [30; 31; 30]
         (2026, 6, 15) 500 300 [5%Q]
       = balloon_step 12 [30; 31; 30] st
    /\ len (schedule st) <= Z.min (1 * 12) (len [30; 31; 30])
    /\ forall k e,
         nth_error (schedule st) k = Some e ->
         exists days,
           nth_error [30; 31; 30] k = Some days
           /\ r_interest e
              = (balance_before 1000 (schedule st) k * period_rate 12 days)%Q.
Proof.
  apply (C8_regular_rows_follow_day_counts 1000 12 1 [30; 31; 30]
           (2026, 6, 15) 500 300 [5%Q] (mkdatetime 2026 6 15)).
  - reflexivity.
  - vm_compute. discriminate.
  - lia.
Defined.

(** ** The installment in effect *)

Lemma stepped_installment_1000_5 (y : nat) :
  (1 <= y)%nat -> (stepped_installment 1000 [5%Q] y == 1050)%Q.
Proof.
  intros Hy. unfold stepped_installment.
  destruct y as [| y]; [lia |].
  cbn [firstn]. rewrite firstn_nil. reflexivity.
Qed.

(** The row the balloon step appends, if it appends one, is the row after
    the regular rows and carries the installment of the final state. *)
Lemma balloon_step_bill_type
    (annual_interest_rate : Q) (monthly_days : list Z) (st : state)
    (sched : list row) (e : row) :
  balloon_step annual_interest_rate monthly_days st = Ok sched ->
  nth_error sched (length (schedule st)) = Some e ->
  r_bill_type e = monthly_installment st.
Proof.
  unfold balloon_step.
  destruct (Qgt_bool (remaining_balance st) 0).
  - destruct (getitem _ _) as [rate |]; [| discriminate].
    cbn [bind]. intros [= <-].
    rewrite nth_error_app2, Nat.sub_diag by lia.
    intros [= <-]. reflexivity.
  - intros [= <-] H.
    assert (nth_error (schedule st) (length (schedule st)) = None)
      by (apply nth_error_None; lia).
    congruence.
Qed.

(** C9.  The installment is stepped up once when each cycle closes, as
    long as the cycle has an entry in [annual_installment_increases], and
    whether or not the cycle appended 12 rows: after the loops it is the
    initial installment times [(1 + p/100)] for each of the first [years]
    increases [p], and that is what the balloon row records; the [k]-th
    regular row (from 0) records the installment stepped up [k / 12] times.
    With an initial installment of 1000 and increases [[5]], every regular
    row from the second cycle on records 1050, and so does the final
    state when there is at least one cycle. *)
Theorem C9_step_up_once_per_cycle
    (principal annual_interest_rate : Q) (years : Z) (monthly_days : list Z)
    (start_date : Z * Z * Z) (balloon_payment bill_type : Q)
    (annual_installment_increases : list Q) (start : datetime) :
  strptime start_date = Ok start ->
  toordinal start + 30 * (len monthly_days + 1) <= MAXORDINAL ->
  exists st,
    regular_amortization principal annual_interest_rate years monthly_days
      start_date balloon_payment bill_type annual_installment_increases
    = Ok st
    /\ calculate_stepped_amortization_schedule principal annual_interest_rate
         years monthly_days start_date balloon_payment bill_type
         annual_installment_increases
       = balloon_step annual_interest_rate monthly_days st
    /\ monthly_installment st
       = stepped_installment bill_type annual_installment_increases
           (Z.to_nat years)
    /\ (forall k e,
          nth_error (schedule st) k = Some e ->
          r_bill_type e
          = stepped_installment bill_type annual_installment_increases
              (k / 12))
    /\ (forall sched e,
          balloon_step annual_interest_rate monthly_days st = Ok sched ->
          nth_error sched (length (schedule st)) = Some e ->
          r_bill_type e
          = stepped_installment bill_type annual_installment_increases
              (Z.to_nat years))
    /\ (bill_type = 1000%Q -> annual_installment_increases = [5%Q] ->
        (forall k e,
           (12 <= k)%nat -> nth_error (schedule st) k = Some e ->
           (r_bill_type e == 1050)%Q)
        /\ (1 <= years -> (monthly_installment st == 1050)%Q)).
Proof.
  intros Hstart Hrange.
  destruct (regular_amortization_inv principal annual_interest_rate years
              monthly_days start_date balloon_payment bill_type
              annual_installment_increases start Hstart Hrange)
    as (st & Hrun & Hrows & _ & _ & _ & Hinst & _ & _).
  assert (Hbill : forall k e,
             nth_error (schedule st) k = Some e ->
             r_bill_type e
             = stepped_installment bill_type annual_installment_increases
                 (k / 12)).
  { intros k e Hk.
    destruct (rows_ok_nth _ _ _ _ _ _ _ _ _ _ _ Hrows Hk)
      as (days & _ & _ & _ & _ & _ & _ & _ & _ & Hbill & _).
    exact Hbill. }
  exists st. split; [exact Hrun |]. split.
  { unfold calculate_stepped_amortization_schedule. rewrite Hrun.
    reflexivity. }
  split; [exact Hinst |]. split; [exact Hbill |]. split.
  { intros sched e Hsched He. rewrite <- Hinst.
    eapply balloon_step_bill_type; eassumption. }
  intros -> ->. split.
  - intros k e Hk He. rewrite (Hbill k e He).
    apply stepped_installment_1000_5.
    apply Nat.div_le_lower_bound; lia.
  - intros Hy. rewrite Hinst. apply stepped_installment_1000_5. lia.
Qed.

Lemma C9_witness :
  exists st,
    regular_amortization 20000 12 2 [30; 31; 30; 31; 30; 31; 30; 31; 30;
                                     31; 30; 31; 30; 31; 30; 31; 30; 31;
                                     30; 31; 30; 31; 30; 31; 30]
      (2026, 6, 15) 500 1000 [5%Q]
    = Ok st
    /\ (forall k e,
          (12 <= k)%nat -> nth_error (schedule st) k = Some e ->
          (r_bill_type e == 1050)%Q)
    /\ (monthly_installment st == 1050)%Q.
Proof.
  destruct (C9_step_up_once_per_cycle 20000 12 2
              [30; 31; 30; 31; 30; 31; 30; 31; 30; 31; 30; 31; 30; 31; 30; 31;
               30; 31; 30; 31; 30; 31; 30; 31; 30]
              (2026, 6, 15) 500 1000 [5%Q] (mkdatetime 2026 6 15))
    as (st & Hrun & _ & _ & _ & _ & Hexample).
  - reflexivity.
  - vm_compute. discriminate.
  - exists st. split; [exact Hrun |].
    destruct (Hexample eq_refl eq_refl) as [Hrows Hfinal].
    split; [exact Hrows | apply Hfinal; lia].
Defined.

(** ** The balloon step *)

Lemma Qgt_bool_true (a b : Q) : Qgt_bool a b = true <-> (b < a)%Q.
Proof.
  unfold Qgt_bool. rewrite negb_true_iff.
  destruct (Qle_bool a b) eqn:E.
  - apply Qle_bool_iff in E. split; [discriminate | intros H].
    exfalso. apply (Qlt_not_le _ _ H E).
  - split; [intros _ | reflexivity].
    apply Qnot_le_lt. intros H. apply Qle_bool_iff in H. congruence.
Qed.

(** With a positive balance and a day count left after the regular rows,
    the balloon step appends one row, computed from that day count. *)
Lemma balloon_step_appends
    (annual_interest_rate : Q) (monthly_days : list Z) (st : state)
    (days : Z) :
  (0 < remaining_balance st)%Q ->
  payment_number st = 1 + len (schedule st) ->
  nth_error monthly_days (length (schedule st)) = Some days ->
  balloon_step annual_interest_rate monthly_days st
  = Ok (schedule st
        ++ [balloon_row annual_interest_rate st
              (remaining_balance st
               * period_rate annual_interest_rate days)%Q]).
Proof.
  intros Hpos Hpn Hdays. unfold balloon_step.
  apply Qgt_bool_true in Hpos. rewrite Hpos.
  destruct (getitem_in_range
              (monthly_interest_rates annual_interest_rate monthly_days)
              (payment_number st - 1)) as (rate & -> & Hrate).
  { unfold monthly_interest_rates, len in *. rewrite length_map.
    assert (length (schedule st) < length monthly_days)%nat
      by (apply nth_error_Some; congruence).
    lia. }
  replace (Z.to_nat (payment_number st - 1)) with (length (schedule st))
    in Hrate by (unfold len in Hpn; lia).
  unfold monthly_interest_rates in Hrate.
  rewrite nth_error_map, Hdays in Hrate. injection Hrate as <-.
  reflexivity.
Qed.

(** With a positive balance and every day count used by a regular row,
    the balloon step reads past the end of the rates. *)
Lemma balloon_step_past_end
    (annual_interest_rate : Q) (monthly_days : list Z) (st : state) :
  (0 < remaining_balance st)%Q ->
  payment_number st = 1 + len (schedule st) ->
  length (schedule st) = length monthly_days ->
  balloon_step annual_interest_rate monthly_days st = Raise IndexError.
Proof.
  intros Hpos Hpn Hall. unfold balloon_step.
  apply Qgt_bool_true in Hpos. rewrite Hpos.
  rewrite getitem_past_end; [reflexivity |].
  unfold monthly_interest_rates, len in *. rewrite length_map. lia.
Qed.

(** Every row of every schedule the function returns records 0 under
    'principal'. *)
Lemma principal_column_zero
    (principal annual_interest_rate : Q) (years : Z) (monthly_days : list Z)
    (start_date : Z * Z * Z) (balloon_payment bill_type : Q)
    (annual_installment_increases : list Q) (start : datetime)
    (sched : list row) :
  strptime start_date = Ok start ->
  toordinal start + 30 * (len monthly_days + 1) <= MAXORDINAL ->
  calculate_stepped_amortization_schedule principal annual_interest_rate
    years monthly_days start_date balloon_payment bill_type
    annual_installment_increases
  = Ok sched ->
  Forall (fun e => r_principal e = 0%Q) sched.
Proof.
  intros Hstart Hrange.
  destruct (regular_amortization_inv principal annual_interest_rate years
              monthly_days start_date balloon_payment bill_type
              annual_installment_increases start Hstart Hrange)
    as (st & Hrun & Hrows & _).
  assert (Hregular : Forall (fun e => r_principal e = 0%Q) (schedule st)).
  { apply Forall_forall. intros e He.
    apply In_nth_error in He as [k Hk].
    destruct (rows_ok_nth _ _ _ _ _ _ _ _ _ _ _ Hrows Hk)
      as (days & _ & _ & _ & _ & _ & _ & _ & Hzero & _).
    exact Hzero. }
  unfold calculate_stepped_amortization_schedule. rewrite Hrun. cbn [bind].
  unfold balloon_step.
  destruct (Qgt_bool (remaining_balance st) 0).
  - destruct (getitem _ _) as [rate |]; [| discriminate].
    cbn [bind]. intros [= <-].
    apply Forall_app. split; [exact Hregular |].
    constructor; [reflexivity | constructor].
  - intros [= <-]. exact Hregular.
Qed.

(** C10.  When the principal is positive and already at or below the
    balloon threshold (and there is a day count), the schedule is the
    balloon row alone, and the installment it records is the initial
    installment stepped up once for each of the [years] cycles that has an
    entry in [annual_installment_increases]: the cycles close, and step
    up, although none appends a row. *)
Theorem C10_balloon_only_installment
    (principal annual_interest_rate : Q) (years : Z) (monthly_days : list Z)
    (start_date : Z * Z * Z) (balloon_payment bill_type : Q)
    (annual_installment_increases : list Q) (start : datetime)
    (days : Z) :
  strptime start_date = Ok start ->
  toordinal start + 30 * (len monthly_days + 1) <= MAXORDINAL ->
  nth_error monthly_days 0 = Some days ->
  (0 < principal)%Q ->
  (principal <= balloon_payment)%Q ->
  exists e,
    calculate_stepped_amortization_schedule principal annual_interest_rate
      years monthly_days start_date balloon_payment bill_type
      annual_installment_increases
    = Ok [e]
    /\ r_bill_type e
       = fold_left (fun m increase_percentage =>
                      m * (1 + increase_percentage / 100))%Q
                   (firstn (Z.to_nat years) annual_installment_increases)
                   bill_type
    /\ r_interest e = (principal * period_rate annual_interest_rate days)%Q
    /\ r_balance e = 0%Q.
Proof.
  intros Hstart Hrange Hdays Hpos Hbelow.
  destruct (regular_amortization_inv principal annual_interest_rate years
              monthly_days start_date balloon_payment bill_type
              annual_installment_increases start Hstart Hrange)
    as (st & Hrun & Hrows & Hbal & Hpn & _ & Hinst & _ & _).
  assert (Hnone : schedule st = []).
  { destruct (schedule st) as [| e0 rows]; [reflexivity |].
    destruct Hrows as [(d & H) _].
    decompose [and] H.
    apply Qle_bool_iff in Hbelow. congruence. }
  rewrite Hnone in Hbal, Hpn. cbn in Hbal.
  unfold calculate_stepped_amortization_schedule. rewrite Hrun.
  cbn [bind].
  rewrite (balloon_step_appends annual_interest_rate monthly_days st days).
  - rewrite Hnone. eexists. split; [reflexivity |].
    cbn [balloon_row r_bill_type r_interest r_balance].
    rewrite Hinst, Hbal. repeat split.
  - rewrite Hbal. exact Hpos.
  - rewrite Hnone. exact Hpn.
  - rewrite Hnone. exact Hdays.
Qed.

Lemma C10_witness :
  exists e,
    calculate_stepped_amortization_schedule 1000 12 3 [30; 31]
      (2026, 6, 15) 2000 100 [5%Q; 10%Q]
    = Ok [e]
    /\ r_bill_type e = (100 * (1 + 5 / 100) * (1 + 10 / 100))%Q
    /\ r_interest e = (1000 * period_rate 12 30)%Q
    /\ r_balance e = 0%Q.
Proof.
  apply (C10_balloon_only_installment 1000 12 3 [30; 31] (2026, 6, 15)
           2000 100 [5%Q; 10%Q] (mkdatetime 2026 6 15) 30).
  - reflexivity.
  - vm_compute. discriminate.
  - reflexivity.
  - reflexivity.
  - vm_compute. discriminate.
Defined.

(** ** What the rows record *)

(** C5 as stated fails: the first row of this schedule pays on
    2026-07-15 and records 15 under 'days', while the day count of its
    period is 30. *)
Lemma C5_counterexample :
  exists st e rest,
    regular_amortization 1000 0 1 [30; 30] (2026, 6, 15) 500 600 [] = Ok st
    /\ schedule st = [e]
    /\ calculate_stepped_amortization_schedule 1000 0 1 [30; 30]
         (2026, 6, 15) 500 600 []
       = Ok (e :: rest)
    /\ nth_error [30; 30] 0 = Some 30
    /\ r_date e = mkdatetime 2026 7 15
    /\ r_days e = 15
    /\ r_days e <> 30.
Proof.
  do 3 eexists. split; [vm_compute; reflexivity |].
  split; [reflexivity |]. split; [vm_compute; reflexivity |].
  cbn. repeat split. discriminate.
Qed.

(** C5, amended.  The [k]-th regular row (from 0) pays [30 * (k + 1)]
    days after the start date and records under 'days' the day of the
    month of that payment date. *)
Theorem C5_days_is_day_of_month
    (principal annual_interest_rate : Q) (years : Z) (monthly_days : list Z)
    (start_date : Z * Z * Z) (balloon_payment bill_type : Q)
    (annual_installment_increases : list Q) (start : datetime) :
  strptime start_date = Ok start ->
  toordinal start + 30 * (len monthly_days + 1) <= MAXORDINAL ->
  exists st,
    regular_amortization principal annual_interest_rate years monthly_days
      start_date balloon_payment bill_type annual_installment_increases
    = Ok st
    /\ calculate_stepped_amortization_schedule principal annual_interest_rate
         years monthly_days start_date balloon_payment bill_type
         annual_installment_increases
       = balloon_step annual_interest_rate monthly_days st
    /\ forall k e,
         nth_error (schedule st) k = Some e ->
         r_date e = fromordinal (toordinal start + 30 * (Z.of_nat k + 1))
         /\ r_days e = day (r_date e).
Proof.
  intros Hstart Hrange.
  destruct (regular_amortization_inv principal annual_interest_rate years
              monthly_days start_date balloon_payment bill_type
              annual_installment_increases start Hstart Hrange)
    as (st & Hrun & Hrows & _).
  exists st. split; [exact Hrun |]. split.
  { unfold calculate_stepped_amortization_schedule. rewrite Hrun.
    reflexivity. }
  intros k e Hk.
  destruct (rows_ok_nth _ _ _ _ _ _ _ _ _ _ _ Hrows Hk)
    as (days & _ & Hdate & _ & Hday & _).
  split; [exact Hdate | exact Hday].
Qed.

Lemma C5_witness :
  exists st,
    regular_amortization 1000 0 1 [30; 30] (2026, 6, 15) 500 600 [] = Ok st
    /\ forall k e,
         nth_error (schedule st) k = Some e ->
         r_date e
         = fromordinal (toordinal (mkdatetime 2026 6 15)
                        + 30 * (Z.of_nat k + 1))
         /\ r_days e = day (r_date e).
Proof.
  destruct (C5_days_is_day_of_month 1000 0 1 [30; 30] (2026, 6, 15) 500 600
              [] (mkdatetime 2026 6 15)) as (st & Hrun & _ & Hrows).
  - reflexivity.
  - vm_compute. discriminate.
  - exists st. split; [exact Hrun | exact Hrows].
Defined.

(** ** Balances *)

Lemma capped_le_balance (b installment interest : Q) :
  (capped b installment interest <= b)%Q.
Proof.
  unfold capped, Qgt_bool.
  destruct (Qle_bool (installment - interest) b) eqn:E; cbn [negb].
  - apply Qle_bool_iff in E. exact E.
  - apply Qle_refl.
Qed.

Lemma capped_nonneg (b installment interest : Q) :
  (0 <= b)%Q -> (interest <= installment)%Q ->
  (0 <= capped b installment interest)%Q.
Proof.
  intros Hb Hi. unfold capped.
  destruct (Qgt_bool (installment - interest) b); [exact Hb | lra].
Qed.

Section BalanceFacts.

Variables (annual_interest_rate : Q) (monthly_days : list Z)
          (start : datetime) (balloon_payment bill_type : Q)
          (annual_installment_increases : list Q).

Local Abbreviation rows_ok :=
  (rows_ok annual_interest_rate monthly_days start balloon_payment bill_type
           annual_installment_increases).

(** A row never records more than the balance before it, and never less
    than zero when that balance is not negative. *)
Lemma rows_ok_balances (b : Q) (k0 : nat) (rows : list row) :
  (0 <= b)%Q ->
  rows_ok b k0 rows ->
  forall k e,
    nth_error rows k = Some e ->
    (0 <= last_balance b (firstn k rows))%Q
    /\ (0 <= r_balance e)%Q
    /\ ((r_interest e <= r_bill_type e)%Q ->
        (r_balance e <= last_balance b (firstn k rows))%Q).
Proof.
  revert b k0. induction rows as [| e0 rows IH]; intros b k0 Hb Hrows k e Hk.
  - destruct k; discriminate.
  - destruct Hrows as [(days & H0) Hrows].
    destruct H0 as (_ & _ & _ & _ & _ & _ & _ & _ & _ & _ & Hbal & _).
    pose proof (capped_le_balance b (r_bill_type e0) (r_interest e0)) as Hcap.
    assert (H0 : (0 <= r_balance e0)%Q) by (rewrite Hbal; lra).
    destruct k as [| k].
    + injection Hk as <-. cbn [firstn last_balance rev].
      split; [exact Hb |]. split; [exact H0 |].
      intros Hi.
      pose proof (capped_nonneg b _ _ Hb Hi). rewrite Hbal. lra.
    + cbn [firstn]. rewrite last_balance_cons.
      apply (IH (r_balance e0) (S k0) H0 Hrows k e Hk).
Qed.

Lemma last_balance_firstn_S (b : Q) (rows : list row) (k : nat) (e : row) :
  nth_error rows k = Some e ->
  last_balance b (firstn (S k) rows) = r_balance e.
Proof.
  intros Hk. rewrite (firstn_snoc _ _ _ Hk). apply last_balance_app.
Qed.

End BalanceFacts.

(** C7 as stated fails: with an installment of 100 the second period, of
    120 days, accrues 109.2 of interest on a balance of 910, so the
    balance recorded goes up from 910 to 919.2. *)
Lemma C7_counterexample :
  exists st e1 e2 e3 e4,
    regular_amortization 1000 (365 # 10) 1 [10; 120; 10; 10] (2026, 6, 15)
      900 100 []
    = Ok st
    /\ schedule st = [e1; e2; e3]
    /\ calculate_stepped_amortization_schedule 1000 (365 # 10) 1
         [10; 120; 10; 10] (2026, 6, 15) 900 100 []
       = Ok [e1; e2; e3; e4]
    /\ (r_balance e1 == 910)%Q
    /\ (r_interest e2 == 1092 # 10)%Q
    /\ (r_balance e2 == 9192 # 10)%Q
    /\ ~ (r_balance e2 <= r_balance e1)%Q.
Proof.
  do 5 eexists. split; [vm_compute; reflexivity |].
  split; [reflexivity |]. split; [vm_compute; reflexivity |].
  cbn [r_balance r_interest].
  split; [reflexivity |]. split; [reflexivity |]. split; [reflexivity |].
  intros H. vm_compute in H. apply H. reflexivity.
Qed.

(** C7, amended.  With a principal that is not negative, the balance
    recorded in each regular row is not negative, and from one regular row
    to the next it does not go up whenever the interest of the later row
    does not exceed the installment in effect; the same holds from the
    principal to the first row. *)
Theorem C7_balances_nonneg_and_falling
    (principal annual_interest_rate : Q) (years : Z) (monthly_days : list Z)
    (start_date : Z * Z * Z) (balloon_payment bill_type : Q)
    (annual_installment_increases : list Q) (start : datetime) :
  strptime start_date = Ok start ->
  toordinal start + 30 * (len monthly_days + 1) <= MAXORDINAL ->
  (0 <= principal)%Q ->
  exists st,
    regular_amortization principal annual_interest_rate years monthly_days
      start_date balloon_payment bill_type annual_installment_increases
    = Ok st
    /\ calculate_stepped_amortization_schedule principal annual_interest_rate
         years monthly_days start_date balloon_payment bill_type
         annual_installment_increases
       = balloon_step annual_interest_rate monthly_days st
    /\ (forall k e,
          nth_error (schedule st) k = Some e -> (0 <= r_balance e)%Q)
    /\ (forall e,
          nth_error (schedule st) 0 = Some e ->
          (r_interest e <= r_bill_type e)%Q ->
          (r_balance e <= principal)%Q)
    /\ (forall k e e',
          nth_error (schedule st) k = Some e ->
          nth_error (schedule st) (S k) = Some e' ->
          (r_interest e' <= r_bill_type e')%Q ->
          (r_balance e' <= r_balance e)%Q).
Proof.
  intros Hstart Hrange Hpos.
  destruct (regular_amortization_inv principal annual_interest_rate years
              monthly_days start_date balloon_payment bill_type
              annual_installment_increases start Hstart Hrange)
    as (st & Hrun & Hrows & _).
  pose proof (rows_ok_balances _ _ _ _ _ _ _ _ _ Hpos Hrows) as Hbal.
  exists st. split; [exact Hrun |]. split.
  { unfold calculate_stepped_amortization_schedule. rewrite Hrun.
    reflexivity. }
  split; [| split].
  - intros k e Hk. apply (Hbal k e Hk).
  - intros e He Hi. destruct (Hbal 0%nat e He) as (_ & _ & Hdown).
    apply Hdown. exact Hi.
  - intros k e e' Hk Hk' Hi.
    destruct (Hbal (S k) e' Hk') as (_ & _ & Hdown).
    rewrite (last_balance_firstn_S _ _ _ _ Hk) in Hdown.
    apply Hdown. exact Hi.
Qed.

Lemma C7_witness :
  exists st,
    regular_amortization 1000 (365 # 10) 1 [10; 120; 10; 10] (2026, 6, 15)
      900 100 []
    = Ok st
    /\ (forall k e,
          nth_error (schedule st) k = Some e -> (0 <= r_balance e)%Q)
    /\ (forall k e e',
          nth_error (schedule st) k = Some e ->
          nth_error (schedule st) (S k) = Some e' ->
          (r_interest e' <= r_bill_type e')%Q ->
          (r_balance e' <= r_balance e)%Q).
Proof.
  destruct (C7_balances_nonneg_and_falling 1000 (365 # 10) 1
              [10; 120; 10; 10] (2026, 6, 15) 900 100 []
              (mkdatetime 2026 6 15))
    as (st & Hrun & _ & Hnonneg & _ & Hfalling).
  - reflexivity.
  - vm_compute. discriminate.
  - vm_compute. discriminate.
  - exists st. split; [exact Hrun |]. split; assumption.
Defined.

(** ** The balloon row *)

(** C2 as stated fails: here the one regular row uses the day count 10
    and leaves 410, and the balloon row accrues 410 * 0.02 = 8.2, with the
    rate of the next day count, 20, not 410 * 0.01 = 4.1 with the rate of
    the day count used last. *)
Lemma C2_counterexample :
  exists e1 e2,
    calculate_stepped_amortization_schedule 1000 (365 # 10) 1 [10; 20]
      (2026, 6, 15) 500 600 []
    = Ok [e1; e2]
    /\ (r_balance e1 == 410)%Q
    /\ (r_interest e2 == 82 # 10)%Q
    /\ (r_balance e1 * period_rate (365 # 10) 10 == 41 # 10)%Q
    /\ ~ (r_interest e2 == r_balance e1 * period_rate (365 # 10) 10)%Q.
Proof.
  do 2 eexists. split; [vm_compute; reflexivity |].
  cbn [r_balance r_interest].
  split; [reflexivity |]. split; [reflexivity |]. split; [reflexivity |].
  intros H. vm_compute in H. discriminate H.
Qed.

(** C2, amended.  When the loops end with a positive balance after [k]
    regular rows and [monthly_days] has an entry [k], the one after the
    entries the regular rows used, the function returns the regular rows
    and exactly one more row, whose interest is that balance times the
    period rate of entry [k], and whose balance is 0. *)
Theorem C2_balloon_uses_next_day_count
    (principal annual_interest_rate : Q) (years : Z) (monthly_days : list Z)
    (start_date : Z * Z * Z) (balloon_payment bill_type : Q)
    (annual_installment_increases : list Q) (start : datetime) :
  strptime start_date = Ok start ->
  toordinal start + 30 * (len monthly_days + 1) <= MAXORDINAL ->
  exists st,
    regular_amortization principal annual_interest_rate years monthly_days
      start_date balloon_payment bill_type annual_installment_increases
    = Ok st
    /\ remaining_balance st = last_balance principal (schedule st)
    /\ forall days,
         (0 < remaining_balance st)%Q ->
         nth_error monthly_days (length (schedule st)) = Some days ->
         exists e,
           calculate_stepped_amortization_schedule principal
             annual_interest_rate years monthly_days start_date
             balloon_payment bill_type annual_installment_increases
           = Ok (schedule st ++ [e])
           /\ r_interest e
              = (remaining_balance st
                 * period_rate annual_interest_rate days)%Q
           /\ r_balance e = 0%Q.
Proof.
  intros Hstart Hrange.
  destruct (regular_amortization_inv principal annual_interest_rate years
              monthly_days start_date balloon_payment bill_type
              annual_installment_increases start Hstart Hrange)
    as (st & Hrun & _ & Hbal & Hpn & _).
  exists st. split; [exact Hrun |]. split; [exact Hbal |].
  intros days Hpos Hdays.
  eexists. split.
  - unfold calculate_stepped_amortization_schedule. rewrite Hrun.
    cbn [bind]. apply balloon_step_appends; eassumption.
  - split; reflexivity.
Qed.

Lemma C2_witness :
  exists st,
    regular_amortization 1000 (365 # 10) 1 [10; 20] (2026, 6, 15) 500 600 []
    = Ok st
    /\ forall days,
         (0 < remaining_balance st)%Q ->
         nth_error [10; 20] (length (schedule st)) = Some days ->
         exists e,
           calculate_stepped_amortization_schedule 1000 (365 # 10) 1
             [10; 20] (2026, 6, 15) 500 600 []
           = Ok (schedule st ++ [e])
           /\ r_interest e
              = (remaining_balance st * period_rate (365 # 10) days)%Q
           /\ r_balance e = 0%Q.
Proof.
  destruct (C2_balloon_uses_next_day_count 1000 (365 # 10) 1 [10; 20]
              (2026, 6, 15) 500 600 [] (mkdatetime 2026 6 15))
    as (st & Hrun & _ & Hballoon).
  - reflexivity.
  - vm_compute. discriminate.
  - exists st. split; [exact Hrun | exact Hballoon].
Defined.

(** C3 fails on the code.  Five day counts for a term of eight years: the
    five regular rows use them all, the balance is still positive, and the
    balloon step asks for a sixth rate. *)
Theorem C3_index_error_after_last_day_count :
  calculate_stepped_amortization_schedule 100000 12 8 [30; 30; 30; 30; 30]
    (2026, 6, 15) 0 1000 []
  = Raise IndexError.
Proof. vm_compute. reflexivity. Qed.

(** ** The 'principal' column *)

(** C1 fails on the code.  The two rows of this schedule take the balance
    from 1000 to 400 and from 400 to 0, and both record 0 under
    'principal': the column adds up to 0, not to the principal. *)
Theorem C1_principal_column_is_zero :
  exists e1 e2,
    calculate_stepped_amortization_schedule 1000 0 1 [30; 30] (2026, 6, 15)
      500 600 []
    = Ok [e1; e2]
    /\ r_principal e1 = 0%Q
    /\ r_principal e2 = 0%Q
    /\ (principal_total [e1; e2] == 0)%Q
    /\ ~ (principal_total [e1; e2] == 1000)%Q.
Proof.
  do 2 eexists. split; [vm_compute; reflexivity |].
  cbn [r_principal]. split; [reflexivity |]. split; [reflexivity |].
  split; [reflexivity |].
  intros H. vm_compute in H. discriminate H.
Qed.

(** C6 fails on the code.  The balloon row of this schedule follows a row
    that leaves a balance of 400; it records a balance of 0 and, under
    'principal', 0 rather than 400. *)
Theorem C6_balloon_row_principal_is_zero :
  exists e1 e2,
    calculate_stepped_amortization_schedule 1000 0 1 [30; 30] (2026, 6, 15)
      500 600 []
    = Ok [e1; e2]
    /\ (r_balance e1 == 400)%Q
    /\ r_balance e2 = 0%Q
    /\ r_principal e2 = 0%Q
    /\ ~ (r_principal e2 == r_balance e1)%Q.
Proof.
  do 2 eexists. split; [vm_compute; reflexivity |].
  cbn [r_principal r_balance]. split; [reflexivity |].
  split; [reflexivity |]. split; [reflexivity |].
  intros H. vm_compute in H. discriminate H.
Qed.

(** * Further properties of the schedule *)

(** The state the loops leave satisfies the invariant, and the function
    is the balloon step on it. *)
Lemma calculate_after_loops
    (principal annual_interest_rate : Q) (years : Z) (monthly_days : list Z)
    (start_date : Z * Z * Z) (balloon_payment bill_type : Q)
    (annual_installment_increases : list Q) (start : datetime) :
  strptime start_date = Ok start ->
  toordinal start + 30 * (len monthly_days + 1) <= MAXORDINAL ->
  exists st,
    regular_amortization principal annual_interest_rate years monthly_days
      start_date balloon_payment bill_type annual_installment_increases
    = Ok st
    /\ loop_inv principal annual_interest_rate monthly_days start
         balloon_payment bill_type annual_installment_increases
         (Z.to_nat years) 0 st
    /\ calculate_stepped_amortization_schedule principal annual_interest_rate
         years monthly_days start_date balloon_payment bill_type
         annual_installment_increases
       = balloon_step annual_interest_rate monthly_days st.
Proof.
  intros Hstart Hrange.
  destruct (regular_amortization_inv principal annual_interest_rate years
              monthly_days start_date balloon_payment bill_type
              annual_installment_increases start Hstart Hrange)
    as (st & Hrun & Hinv).
  exists st. split; [exact Hrun |]. split; [exact Hinv |].
  unfold calculate_stepped_amortization_schedule. rewrite Hrun. reflexivity.
Qed.

(** X1.  For a start date that parses and payment dates in range: when
    [monthly_days] has more entries than the term has months, the
    function returns a schedule.  It is the regular rows alone when the
    balance the loops leave is not positive, and the regular rows
    followed by exactly one balloon row, of balance 0 and with the
    interest of that balance over the next day count, when it is
    positive. *)
Theorem X1_schedule_returned_when_days_outlast_term
    (principal annual_interest_rate : Q) (years : Z) (monthly_days : list Z)
    (start_date : Z * Z * Z) (balloon_payment bill_type : Q)
    (annual_installment_increases : list Q) (start : datetime) :
  strptime start_date = Ok start ->
  toordinal start + 30 * (len monthly_days + 1) <= MAXORDINAL ->
  0 <= years ->
  years * 12 < len monthly_days ->
  exists st,
    regular_amortization principal annual_interest_rate years monthly_days
      start_date balloon_payment bill_type annual_installment_increases
    = Ok st
    /\ (((remaining_balance st <= 0)%Q
         /\ calculate_stepped_amortization_schedule principal
              annual_interest_rate years monthly_days start_date
              balloon_payment bill_type annual_installment_increases
            = Ok (schedule st))
        \/ ((0 < remaining_balance st)%Q
            /\ exists days e,
                 nth_error monthly_days (length (schedule st)) = Some days
                 /\ calculate_stepped_amortization_schedule principal
                      annual_interest_rate years monthly_days start_date
                      balloon_payment bill_type
                      annual_installment_increases
                    = Ok (schedule st ++ [e])
                 /\ r_interest e
                    = (remaining_balance st
                       * period_rate annual_interest_rate days)%Q
                 /\ r_bill_type e = monthly_installment st
                 /\ r_balance e = 0%Q)).
Proof.
  intros Hstart Hrange Hyears Hterm.
  destruct (calculate_after_loops principal annual_interest_rate years
              monthly_days start_date balloon_payment bill_type
              annual_installment_increases start Hstart Hrange)
    as (st & Hrun & Hinv & ->).
  destruct Hinv as (_ & _ & Hpn & _ & _ & _ & Hcount).
  exists st. split; [exact Hrun |].
  destruct (Qlt_le_dec 0 (remaining_balance st)) as [Hpos | Hnonpos].
  - right. split; [exact Hpos |].
    destruct (nth_error monthly_days (length (schedule st)))
      as [days |] eqn:Hdays.
    + exists days. eexists. split; [reflexivity |].
      split; [apply balloon_step_appends; eassumption |].
      repeat split.
    + exfalso. apply nth_error_None in Hdays. unfold len in Hterm.
      destruct Hcount as [Hc | [_ Hc]]; lia.
  - left. split; [exact Hnonpos |]. unfold balloon_step.
    destruct (Qgt_bool (remaining_balance st) 0) eqn:E; [| reflexivity].
    apply Qgt_bool_true in E. exfalso. apply (Qlt_not_le _ _ E Hnonpos).
Qed.

Lemma X1_witness :
  exists st,
    regular_amortization 1000 12 1
      [30; 31; 30; 31; 30; 31; 30; 31; 30; 31; 30; 31; 30]
      (2026, 6, 15) 500 300 [5%Q]
    = Ok st
    /\ (((remaining_balance st <= 0)%Q
         /\ calculate_stepped_amortization_schedule 1000 12 1
              [30; 31; 30; 31; 30; 31; 30; 31; 30; 31; 30; 31; 30]
              (2026, 6, 15) 500 300 [5%Q]
            = Ok (schedule st))
        \/ ((0 < remaining_balance st)%Q
            /\ exists days e,
                 nth_error
                   [30; 31; 30; 31; 30; 31; 30; 31; 30; 31; 30; 31; 30]
                   (length (schedule st)) = Some days
                 /\ calculate_stepped_amortization_schedule 1000 12 1
                      [30; 31; 30; 31; 30; 31; 30; 31; 30; 31; 30; 31; 30]
                      (2026, 6, 15) 500 300 [5%Q]
                    = Ok (schedule st ++ [e])
                 /\ r_interest e
                    = (remaining_balance st * period_rate 12 days)%Q
                 /\ r_bill_type e = monthly_installment st
                 /\ r_balance e = 0%Q)).
Proof.
  apply (X1_schedule_returned_when_days_outlast_term 1000 12 1
           [30; 31; 30; 31; 30; 31; 30; 31; 30; 31; 30; 31; 30]
           (2026, 6, 15) 500 300 [5%Q] (mkdatetime 2026 6 15)).
  - reflexivity.
  - vm_compute. discriminate.
  - lia.
  - vm_compute. reflexivity.
Defined.

(** X2.  How the function ends, for a start date that parses and payment
    dates in range.  After the loops, with [k] regular rows:
    a balance that is not positive returns the regular rows as they are;
    a positive balance with a day count left ([k < len(monthly_days)])
    returns them with one more row, of balance 0; a positive balance with
    no day count left raises [IndexError]. *)
Theorem X2_outcomes
    (principal annual_interest_rate : Q) (years : Z) (monthly_days : list Z)
    (start_date : Z * Z * Z) (balloon_payment bill_type : Q)
    (annual_installment_increases : list Q) (start : datetime) :
  strptime start_date = Ok start ->
  toordinal start + 30 * (len monthly_days + 1) <= MAXORDINAL ->
  exists st,
    regular_amortization principal annual_interest_rate years monthly_days
      start_date balloon_payment bill_type annual_installment_increases
    = Ok st
    /\ (((remaining_balance st <= 0)%Q
         /\ calculate_stepped_amortization_schedule principal
              annual_interest_rate years monthly_days start_date
              balloon_payment bill_type annual_installment_increases
            = Ok (schedule st))
        \/ ((0 < remaining_balance st)%Q
            /\ (length (schedule st) < length monthly_days)%nat
            /\ exists e,
                 calculate_stepped_amortization_schedule principal
                   annual_interest_rate years monthly_days start_date
                   balloon_payment bill_type annual_installment_increases
                 = Ok (schedule st ++ [e])
                 /\ r_balance e = 0%Q)
        \/ ((0 < remaining_balance st)%Q
            /\ length (schedule st) = length monthly_days
            /\ calculate_stepped_amortization_schedule principal
                 annual_interest_rate years monthly_days start_date
                 balloon_payment bill_type annual_installment_increases
               = Raise IndexError)).
Proof.
  intros Hstart Hrange.
  destruct (calculate_after_loops principal annual_interest_rate years
              monthly_days start_date balloon_payment bill_type
              annual_installment_increases start Hstart Hrange)
    as (st & Hrun & Hinv & ->).
  destruct Hinv as (_ & _ & Hpn & _ & _ & Hlen & _).
  exists st. split; [exact Hrun |].
  destruct (Qlt_le_dec 0 (remaining_balance st)) as [Hpos | Hnonpos].
  - right.
    destruct (nth_error monthly_days (length (schedule st)))
      as [days |] eqn:Hdays.
    + left. split; [exact Hpos |]. split.
      { apply nth_error_Some. congruence. }
      eexists. split; [apply balloon_step_appends; eassumption |].
      reflexivity.
    + right. split; [exact Hpos |].
      apply nth_error_None in Hdays.
      assert (Hall : length (schedule st) = length monthly_days) by lia.
      split; [exact Hall |].
      apply balloon_step_past_end; assumption.
  - left. split; [exact Hnonpos |].
    unfold balloon_step.
    destruct (Qgt_bool (remaining_balance st) 0) eqn:E; [| reflexivity].
    apply Qgt_bool_true in E. exfalso. apply (Qlt_not_le _ _ E Hnonpos).
Qed.

Lemma X2_witness :
  exists st,
    regular_amortization 1000 0 1 [30; 30] (2026, 6, 15) 500 600 [] = Ok st
    /\ (((remaining_balance st <= 0)%Q
         /\ calculate_stepped_amortization_schedule 1000 0 1 [30; 30]
              (2026, 6, 15) 500 600 []
            = Ok (schedule st))
        \/ ((0 < remaining_balance st)%Q
            /\ (length (schedule st) < length [30; 30])%nat
            /\ exists e,
                 calculate_stepped_amortization_schedule 1000 0 1 [30; 30]
                   (2026, 6, 15) 500 600 []
                 = Ok (schedule st ++ [e])
                 /\ r_balance e = 0%Q)
        \/ ((0 < remaining_balance st)%Q
            /\ length (schedule st) = length [30; 30]
            /\ calculate_stepped_amortization_schedule 1000 0 1 [30; 30]
                 (2026, 6, 15) 500 600 []
               = Raise IndexError)).
Proof.
  apply (X2_outcomes 1000 0 1 [30; 30] (2026, 6, 15) 500 600 []
           (mkdatetime 2026 6 15)).
  - reflexivity.
  - vm_compute. discriminate.
Defined.

(** X3.  An empty [monthly_days] with a positive principal, for a start
    date that parses and lies at least 30 days before the end of the year
    9999: no regular row, and the balloon step raises [IndexError],
    whatever the rate, the term, the threshold, the installment and the
    increases. *)
Theorem X3_no_day_counts_index_error
    (principal annual_interest_rate : Q) (years : Z)
    (start_date : Z * Z * Z) (balloon_payment bill_type : Q)
    (annual_installment_increases : list Q) (start : datetime) :
  strptime start_date = Ok start ->
  toordinal start + 30 <= MAXORDINAL ->
  (0 < principal)%Q ->
  calculate_stepped_amortization_schedule principal annual_interest_rate
    years [] start_date balloon_payment bill_type
    annual_installment_increases
  = Raise IndexError.
Proof.
  intros Hstart Hrange Hpos.
  destruct (calculate_after_loops principal annual_interest_rate years
              [] start_date balloon_payment bill_type
              annual_installment_increases start Hstart)
    as (st & _ & Hinv & ->).
  { unfold len. cbn [length]. lia. }
  destruct Hinv as (_ & Hbal & Hpn & _ & _ & Hlen & _).
  assert (Hnone : schedule st = []).
  { destruct (schedule st); [reflexivity | cbn [length] in Hlen; lia]. }
  apply balloon_step_past_end.
  - rewrite Hbal, Hnone. exact Hpos.
  - exact Hpn.
  - rewrite Hnone. reflexivity.
Qed.

Lemma X3_witness :
  calculate_stepped_amortization_schedule 1000 12 8 [] (2026, 6, 15)
    0 100 [5%Q]
  = Raise IndexError.
Proof.
  apply (X3_no_day_counts_index_error 1000 12 8 (2026, 6, 15) 0 100 [5%Q]
           (mkdatetime 2026 6 15)).
  - reflexivity.
  - vm_compute. discriminate.
  - reflexivity.
Defined.

(** X4.  A start date in the last 30 days of the year 9999 raises
    [OverflowError] when the first payment date is computed, before any
    other argument is looked at. *)
Theorem X4_first_payment_date_overflow
    (principal annual_interest_rate : Q) (years : Z) (monthly_days : list Z)
    (start_date : Z * Z * Z) (balloon_payment bill_type : Q)
    (annual_installment_increases : list Q) (start : datetime) :
  strptime start_date = Ok start ->
  MAXORDINAL < toordinal start + 30 ->
  calculate_stepped_amortization_schedule principal annual_interest_rate
    years monthly_days start_date balloon_payment bill_type
    annual_installment_increases
  = Raise OverflowError.
Proof.
  intros Hstart Hlate.
  unfold calculate_stepped_amortization_schedule, regular_amortization,
    initial_state.
  rewrite Hstart. cbn [bind]. unfold add_days.
  destruct (Z.leb_spec (toordinal start + 30) MAXORDINAL) as [Hle | _];
    [lia |].
  rewrite andb_false_r. reflexivity.
Qed.

Lemma X4_witness :
  calculate_stepped_amortization_schedule 1000 12 1 [30; 30] (9999, 12, 15)
    500 600 []
  = Raise OverflowError.
Proof.
  apply (X4_first_payment_date_overflow 1000 12 1 [30; 30] (9999, 12, 15)
           500 600 [] (mkdatetime 9999 12 15)).
  - reflexivity.
  - vm_compute. reflexivity.
Defined.

(** X10.  A term of no years ([years <= 0]) runs no cycle: with a positive
    principal and a day count, the schedule is the balloon row alone, 30
    days after the start date, with the interest of the whole principal
    over the first day count and the initial installment, not stepped
    up. *)
Theorem X10_no_cycle_balloon_only
    (principal annual_interest_rate : Q) (years : Z) (monthly_days : list Z)
    (start_date : Z * Z * Z) (balloon_payment bill_type : Q)
    (annual_installment_increases : list Q) (start : datetime)
    (days : Z) :
  strptime start_date = Ok start ->
  toordinal start + 30 <= MAXORDINAL ->
  years <= 0 ->
  nth_error monthly_days 0 = Some days ->
  (0 < principal)%Q ->
  exists e,
    calculate_stepped_amortization_schedule principal annual_interest_rate
      years monthly_days start_date balloon_payment bill_type
      annual_installment_increases
    = Ok [e]
    /\ r_date e = fromordinal (toordinal start + 30)
    /\ r_bill_type e = bill_type
    /\ r_interest e = (principal * period_rate annual_interest_rate days)%Q
    /\ r_balance e = 0%Q.
Proof.
  intros Hstart Hrange Hyears Hdays Hpos.
  unfold calculate_stepped_amortization_schedule, regular_amortization,
    initial_state.
  rewrite Hstart. cbn [bind].
  rewrite add_days_in_range.
  2:{ pose proof (strptime_ordinal _ _ Hstart). lia. }
  cbn [bind]. replace (Z.to_nat years) with 0%nat by lia.
  cbn [year_loop bind].
  rewrite (balloon_step_appends _ _ _ days); cbn [schedule remaining_balance
    payment_number length]; try assumption; try reflexivity.
  eexists. split; [reflexivity |]. repeat split.
Qed.

Lemma X10_witness :
  exists e,
    calculate_stepped_amortization_schedule 1000 12 0 [30; 31]
      (2026, 6, 15) 500 100 [5%Q]
    = Ok [e]
    /\ r_date e = fromordinal (toordinal (mkdatetime 2026 6 15) + 30)
    /\ r_bill_type e = 100%Q
    /\ r_interest e = (1000 * period_rate 12 30)%Q
    /\ r_balance e = 0%Q.
Proof.
  apply (X10_no_cycle_balloon_only 1000 12 0 [30; 31] (2026, 6, 15) 500 100
           [5%Q] (mkdatetime 2026 6 15) 30).
  - reflexivity.
  - vm_compute. discriminate.
  - lia.
  - reflexivity.
  - reflexivity.
Defined.

(** A schedule the balloon step returns is the regular rows, with the
    balance not positive, or the regular rows and the balloon row for the
    next day count, with the balance positive. *)
Lemma balloon_step_returns
    (annual_interest_rate : Q) (monthly_days : list Z) (st : state)
    (sched : list row) :
  payment_number st = 1 + len (schedule st) ->
  balloon_step annual_interest_rate monthly_days st = Ok sched ->
  ((remaining_balance st <= 0)%Q /\ sched = schedule st)
  \/ ((0 < remaining_balance st)%Q
      /\ exists days,
           nth_error monthly_days (length (schedule st)) = Some days
           /\ sched
              = schedule st
                ++ [balloon_row annual_interest_rate st
                      (remaining_balance st
                       * period_rate annual_interest_rate days)%Q]).
Proof.
  intros Hpn.
  destruct (Qlt_le_dec 0 (remaining_balance st)) as [Hpos | Hnonpos].
  - destruct (nth_error monthly_days (length (schedule st)))
      as [days |] eqn:Hdays.
    + rewrite (balloon_step_appends _ _ _ _ Hpos Hpn Hdays).
      intros [= <-]. right. split; [exact Hpos |].
      exists days. split; reflexivity.
    + apply nth_error_None in Hdays. unfold balloon_step.
      apply Qgt_bool_true in Hpos. rewrite Hpos.
      rewrite getitem_past_end; [discriminate |].
      unfold monthly_interest_rates, len in *. rewrite length_map. lia.
  - unfold balloon_step.
    destruct (Qgt_bool (remaining_balance st) 0) eqn:E.
    + apply Qgt_bool_true in E. exfalso. apply (Qlt_not_le _ _ E Hnonpos).
    + intros [= <-]. left. split; [exact Hnonpos | reflexivity].
Qed.

Lemma last_balance_nonneg
    (annual_interest_rate : Q) (monthly_days : list Z) (start : datetime)
    (balloon_payment bill_type : Q) (annual_installment_increases : list Q)
    (b : Q) (k0 : nat) (rows : list row) :
  (0 <= b)%Q ->
  rows_ok annual_interest_rate monthly_days start balloon_payment bill_type
    annual_installment_increases b k0 rows ->
  (0 <= last_balance b rows)%Q.
Proof.
  intros Hb Hrows.
  destruct (rev rows) as [| e rows'] eqn:E.
  - unfold last_balance. rewrite E. exact Hb.
  - assert (Hsplit : rows = rev rows' ++ [e]).
    { rewrite <- (rev_involutive rows), E. reflexivity. }
    rewrite Hsplit, last_balance_app.
    eapply (rows_ok_balances _ _ _ _ _ _ _ _ _ Hb Hrows (length (rev rows'))).
    rewrite Hsplit, nth_error_app2, Nat.sub_diag by lia. reflexivity.
Qed.

(** X5.  With a positive principal, a schedule the function returns is
    never empty, and its last row records a balance of zero: either it is
    the balloon row, or the last regular row brought the balance to
    zero. *)
Theorem X5_schedule_ends_at_zero
    (principal annual_interest_rate : Q) (years : Z) (monthly_days : list Z)
    (start_date : Z * Z * Z) (balloon_payment bill_type : Q)
    (annual_installment_increases : list Q) (start : datetime)
    (sched : list row) :
  strptime start_date = Ok start ->
  toordinal start + 30 * (len monthly_days + 1) <= MAXORDINAL ->
  (0 < principal)%Q ->
  calculate_stepped_amortization_schedule principal annual_interest_rate
    years monthly_days start_date balloon_payment bill_type
    annual_installment_increases
  = Ok sched ->
  exists rows e, sched = rows ++ [e] /\ (r_balance e == 0)%Q.
Proof.
  intros Hstart Hrange Hpos.
  destruct (calculate_after_loops principal annual_interest_rate years
              monthly_days start_date balloon_payment bill_type
              annual_installment_increases start Hstart Hrange)
    as (st & _ & Hinv & ->).
  destruct Hinv as (Hrows & Hbal & Hpn & _).
  intros Hsched.
  apply balloon_step_returns in Hsched
      as [[Hnonpos ->] | [_ (days & _ & ->)]]; [| | exact Hpn].
  - pose proof (last_balance_nonneg _ _ _ _ _ _ _ _ _
                  (Qlt_le_weak _ _ Hpos) Hrows) as Hnonneg.
    rewrite <- Hbal in Hnonneg.
    destruct (rev (schedule st)) as [| e rows'] eqn:E.
    + exfalso. unfold last_balance in Hbal. rewrite E in Hbal.
      rewrite Hbal in Hnonpos. apply (Qlt_not_le _ _ Hpos Hnonpos).
    + assert (Hsplit : schedule st = rev rows' ++ [e]).
      { rewrite <- (rev_involutive (schedule st)), E. reflexivity. }
      exists (rev rows'), e. split; [exact Hsplit |].
      rewrite Hsplit, last_balance_app in Hbal. rewrite <- Hbal.
      apply Qle_antisym; assumption.
  - eexists. eexists. split; reflexivity.
Qed.

Lemma X5_witness :
  exists rows e,
    calculate_stepped_amortization_schedule 1000 0 1 [30; 30] (2026, 6, 15)
      0 600 []
    = Ok (rows ++ [e])
    /\ (r_balance e == 0)%Q.
Proof.
  edestruct (X5_schedule_ends_at_zero 1000 0 1 [30; 30] (2026, 6, 15)
               0 600 [] (mkdatetime 2026 6 15)) as (rows & e & Hsplit & Hzero).
  - reflexivity.
  - vm_compute. discriminate.
  - reflexivity.
  - vm_compute. reflexivity.
  - exists rows, e. split; [| exact Hzero].
    rewrite <- Hsplit. vm_compute. reflexivity.
Defined.

(** X6.  In a schedule the function returns, the row at position [k]
    (from 0), the balloon row included, pays [30 * (k + 1)] days after the
    start date, and records under 'days' the day of the month of that
    date: payment dates go up by 30 days from row to row. *)
Theorem X6_payment_dates
    (principal annual_interest_rate : Q) (years : Z) (monthly_days : list Z)
    (start_date : Z * Z * Z) (balloon_payment bill_type : Q)
    (annual_installment_increases : list Q) (start : datetime)
    (sched : list row) :
  strptime start_date = Ok start ->
  toordinal start + 30 * (len monthly_days + 1) <= MAXORDINAL ->
  calculate_stepped_amortization_schedule principal annual_interest_rate
    years monthly_days start_date balloon_payment bill_type
    annual_installment_increases
  = Ok sched ->
  forall k e,
    nth_error sched k = Some e ->
    r_date e = fromordinal (toordinal start + 30 * (Z.of_nat k + 1))
    /\ toordinal (r_date e) = toordinal start + 30 * (Z.of_nat k + 1)
    /\ r_day e = r_date e
    /\ r_days e = day (r_date e).
Proof.
  intros Hstart Hrange.
  destruct (calculate_after_loops principal annual_interest_rate years
              monthly_days start_date balloon_payment bill_type
              annual_installment_increases start Hstart Hrange)
    as (st & _ & Hinv & ->).
  destruct Hinv as (Hrows & _ & Hpn & Hdate & _).
  intros Hsched k e Hk.
  assert (Hregular : forall k e,
             nth_error (schedule st) k = Some e ->
             r_date e = fromordinal (toordinal start + 30 * (Z.of_nat k + 1))
             /\ r_day e = r_date e
             /\ r_days e = day (r_date e)).
  { intros k' e' Hk'.
    destruct (rows_ok_nth _ _ _ _ _ _ _ _ _ _ _ Hrows Hk')
      as (days & _ & Hd & Hday & Hdays & _).
    repeat split; assumption. }
  assert (Hthree :
            r_date e = fromordinal (toordinal start + 30 * (Z.of_nat k + 1))
            /\ r_day e = r_date e
            /\ r_days e = day (r_date e)).
  { apply balloon_step_returns in Hsched
        as [[_ ->] | [_ (days & _ & ->)]]; [| | exact Hpn].
    - apply Hregular. exact Hk.
    - destruct (Nat.lt_ge_cases k (length (schedule st))) as [Hlt | Hge].
      + rewrite nth_error_app1 in Hk by exact Hlt. apply Hregular. exact Hk.
      + rewrite nth_error_app2 in Hk by exact Hge.
        destruct (k - length (schedule st))%nat as [| j] eqn:Ej.
        * injection Hk as <-.
          cbn [balloon_row r_date r_day r_days].
          split; [| split; [reflexivity | apply day_of_month]].
          rewrite Hdate, Hpn. unfold len. f_equal. lia.
        * destruct j; discriminate. }
  destruct Hthree as (Hd & Hday & Hdays).
  split; [exact Hd |]. split; [| split; assumption].
  rewrite Hd. apply CalendarFacts.toordinal_fromordinal.
Qed.

Lemma X6_witness :
  exists sched,
    calculate_stepped_amortization_schedule 1000 0 1 [30; 30] (2026, 6, 15)
      500 600 []
    = Ok sched
    /\ forall k e,
         nth_error sched k = Some e ->
         r_date e
         = fromordinal (toordinal (mkdatetime 2026 6 15)
                        + 30 * (Z.of_nat k + 1))
         /\ toordinal (r_date e)
            = toordinal (mkdatetime 2026 6 15) + 30 * (Z.of_nat k + 1)
         /\ r_day e = r_date e
         /\ r_days e = day (r_date e).
Proof.
  eexists. split; [vm_compute; reflexivity |].
  apply (X6_payment_dates 1000 0 1 [30; 30] (2026, 6, 15) 500 600 []
           (mkdatetime 2026 6 15)).
  - reflexivity.
  - vm_compute. discriminate.
  - vm_compute. reflexivity.
Defined.

Lemma period_rate_nonneg (annual_interest_rate : Q) (days : Z) :
  (0 <= annual_interest_rate)%Q -> 0 <= days ->
  (0 <= period_rate annual_interest_rate days)%Q.
Proof.
  intros Hrate Hdays. unfold period_rate, Qdiv.
  apply Qmult_le_0_compat; apply Qmult_le_0_compat;
    try exact Hrate; try discriminate.
  unfold Qle. simpl. lia.
Qed.

(** X7.  With a principal and an annual rate that are not negative and
    day counts that are not negative, no row of a returned schedule, the
    balloon row included, records a negative interest. *)
Theorem X7_interest_nonneg
    (principal annual_interest_rate : Q) (years : Z) (monthly_days : list Z)
    (start_date : Z * Z * Z) (balloon_payment bill_type : Q)
    (annual_installment_increases : list Q) (start : datetime)
    (sched : list row) :
  strptime start_date = Ok start ->
  toordinal start + 30 * (len monthly_days + 1) <= MAXORDINAL ->
  (0 <= principal)%Q ->
  (0 <= annual_interest_rate)%Q ->
  Forall (fun days => 0 <= days) monthly_days ->
  calculate_stepped_amortization_schedule principal annual_interest_rate
    years monthly_days start_date balloon_payment bill_type
    annual_installment_increases
  = Ok sched ->
  Forall (fun e => (0 <= r_interest e)%Q) sched.
Proof.
  intros Hstart Hrange Hpos Hrate Hdays.
  destruct (calculate_after_loops principal annual_interest_rate years
              monthly_days start_date balloon_payment bill_type
              annual_installment_increases start Hstart Hrange)
    as (st & _ & Hinv & ->).
  destruct Hinv as (Hrows & Hbal & Hpn & _).
  assert (Hday : forall k days,
             nth_error monthly_days k = Some days -> 0 <= days).
  { intros k days Hk. apply nth_error_In in Hk.
    apply (proj1 (Forall_forall _ _) Hdays _ Hk). }
  assert (Hregular : Forall (fun e => (0 <= r_interest e)%Q) (schedule st)).
  { apply Forall_forall. intros e He.
    apply In_nth_error in He as [k Hk].
    destruct (rows_ok_nth _ _ _ _ _ _ _ _ _ _ _ Hrows Hk)
      as (days & Hd & _ & _ & _ & _ & _ & _ & _ & _ & -> & _).
    destruct (rows_ok_balances _ _ _ _ _ _ _ _ _ Hpos Hrows k e Hk)
      as (Hb & _).
    apply Qmult_le_0_compat; [exact Hb |].
    apply period_rate_nonneg; [exact Hrate | exact (Hday _ _ Hd)]. }
  intros Hsched.
  apply balloon_step_returns in Hsched
      as [[_ ->] | [Hleft (days & Hd & ->)]]; [exact Hregular | | exact Hpn].
  apply Forall_app. split; [exact Hregular |].
  constructor; [| constructor].
  cbn [balloon_row r_interest].
  apply Qmult_le_0_compat; [apply Qlt_le_weak; exact Hleft |].
  apply period_rate_nonneg; [exact Hrate | exact (Hday _ _ Hd)].
Qed.

Lemma X7_witness :
  exists sched,
    calculate_stepped_amortization_schedule 1000 (365 # 10) 1 [10; 20]
      (2026, 6, 15) 500 600 []
    = Ok sched
    /\ Forall (fun e => (0 <= r_interest e)%Q) sched.
Proof.
  eexists. split; [vm_compute; reflexivity |].
  apply (X7_interest_nonneg 1000 (365 # 10) 1 [10; 20] (2026, 6, 15)
           500 600 [] (mkdatetime 2026 6 15)).
  - reflexivity.
  - vm_compute. discriminate.
  - vm_compute. discriminate.
  - vm_compute. discriminate.
  - repeat constructor; lia.
  - vm_compute. reflexivity.
Defined.

(** X8.  A regular row is appended only while the balance is above the
    balloon threshold: the balance before every regular row is above
    [balloon_payment], so a regular row that records a balance at or
    below the threshold is the last one. *)
Theorem X8_regular_rows_above_threshold
    (principal annual_interest_rate : Q) (years : Z) (monthly_days : list Z)
    (start_date : Z * Z * Z) (balloon_payment bill_type : Q)
    (annual_installment_increases : list Q) (start : datetime) :
  strptime start_date = Ok start ->
  toordinal start + 30 * (len monthly_days + 1) <= MAXORDINAL ->
  exists st,
    regular_amortization principal annual_interest_rate years monthly_days
      start_date balloon_payment bill_type annual_installment_increases
    = Ok st
    /\ calculate_stepped_amortization_schedule principal annual_interest_rate
         years monthly_days start_date balloon_payment bill_type
         annual_installment_increases
       = balloon_step annual_interest_rate monthly_days st
    /\ (forall e,
          nth_error (schedule st) 0 = Some e ->
          (balloon_payment < principal)%Q)
    /\ (forall k e e',
          nth_error (schedule st) k = Some e ->
          nth_error (schedule st) (S k) = Some e' ->
          (balloon_payment < r_balance e)%Q)
    /\ (forall k e,
          nth_error (schedule st) k = Some e ->
          (r_balance e <= balloon_payment)%Q ->
          S k = length (schedule st)).
Proof.
  intros Hstart Hrange.
  destruct (calculate_after_loops principal annual_interest_rate years
              monthly_days start_date balloon_payment bill_type
              annual_installment_increases start Hstart Hrange)
    as (st & Hrun & Hinv & Hcalc).
  destruct Hinv as (Hrows & _).
  assert (Habove : forall k e,
             nth_error (schedule st) k = Some e ->
             (balloon_payment
              < last_balance principal (firstn k (schedule st)))%Q).
  { intros k e Hk.
    destruct (rows_ok_nth _ _ _ _ _ _ _ _ _ _ _ Hrows Hk)
      as (days & _ & _ & _ & _ & _ & _ & _ & _ & _ & _ & _ & Hgo).
    apply Qnot_le_lt. intros Hle. apply Qle_bool_iff in Hle. congruence. }
  assert (Hnext : forall k e e',
             nth_error (schedule st) k = Some e ->
             nth_error (schedule st) (S k) = Some e' ->
             (balloon_payment < r_balance e)%Q).
  { intros k e e' Hk Hk'.
    rewrite <- (last_balance_firstn_S principal _ _ _ Hk).
    apply (Habove _ _ Hk'). }
  exists st. split; [exact Hrun |]. split; [exact Hcalc |].
  split; [| split].
  - intros e He. apply (Habove 0%nat e He).
  - exact Hnext.
  - intros k e Hk Hlow.
    assert (Hlt : (k < length (schedule st))%nat)
      by (apply nth_error_Some; congruence).
    destruct (nth_error (schedule st) (S k)) as [e' |] eqn:Hk'.
    + exfalso. apply (Qlt_not_le _ _ (Hnext _ _ _ Hk Hk') Hlow).
    + apply nth_error_None in Hk'. lia.
Qed.

Lemma X8_witness :
  exists st,
    regular_amortization 1000 (365 # 10) 1 [10; 20] (2026, 6, 15) 500 600 []
    = Ok st
    /\ (forall e,
          nth_error (schedule st) 0 = Some e -> (500 < 1000)%Q)
    /\ (forall k e,
          nth_error (schedule st) k = Some e ->
          (r_balance e <= 500)%Q ->
          S k = length (schedule st)).
Proof.
  destruct (X8_regular_rows_above_threshold 1000 (365 # 10) 1 [10; 20]
              (2026, 6, 15) 500 600 [] (mkdatetime 2026 6 15))
    as (st & Hrun & _ & Hfirst & _ & Hlast).
  - reflexivity.
  - vm_compute. discriminate.
  - exists st. split; [exact Hrun |]. split; assumption.
Defined.

(** X9.  For a start date that parses and payment dates in range, the
    loops stop for one of three reasons only: every month of the term has
    its regular row ([12 * max(years, 0)] rows), every day count is used,
    or the balance is at or below the balloon threshold.  So when the
    balance is still above the threshold after the loops, the regular rows
    are exactly [min(12 * max(years, 0), len(monthly_days))]. *)
Theorem X9_why_the_loops_stop
    (principal annual_interest_rate : Q) (years : Z) (monthly_days : list Z)
    (start_date : Z * Z * Z) (balloon_payment bill_type : Q)
    (annual_installment_increases : list Q) (start : datetime) :
  strptime start_date = Ok start ->
  toordinal start + 30 * (len monthly_days + 1) <= MAXORDINAL ->
  exists st,
    regular_amortization principal annual_interest_rate years monthly_days
      start_date balloon_payment bill_type annual_installment_increases
    = Ok st
    /\ calculate_stepped_amortization_schedule principal annual_interest_rate
         years monthly_days start_date balloon_payment bill_type
         annual_installment_increases
       = balloon_step annual_interest_rate monthly_days st
    /\ (len (schedule st) = 12 * Z.max years 0
        \/ len (schedule st) = len monthly_days
        \/ (remaining_balance st <= balloon_payment)%Q)
    /\ ((balloon_payment < remaining_balance st)%Q ->
        len (schedule st)
        = Z.min (12 * Z.max years 0) (len monthly_days)).
Proof.
  intros Hstart Hrange.
  destruct (calculate_after_loops principal annual_interest_rate years
              monthly_days start_date balloon_payment bill_type
              annual_installment_increases start Hstart Hrange)
    as (st & Hrun & Hinv & Hcalc).
  destruct Hinv as (_ & _ & Hpn & _ & _ & Hlen & Hcount).
  exists st. split; [exact Hrun |]. split; [exact Hcalc |].
  assert (Hstop :
            length (schedule st) = (12 * Z.to_nat years)%nat
            \/ (length (schedule st) = length monthly_days
                /\ (length (schedule st) <= 12 * Z.to_nat years)%nat)
            \/ ((remaining_balance st <= balloon_payment)%Q
                /\ (length (schedule st) <= 12 * Z.to_nat years)%nat)).
  { destruct Hcount as [E | [[Hend | Hlow] Hle]].
    - left. lia.
    - right. left. apply Z.gtb_lt in Hend. unfold len in *. lia.
    - right. right. split; [apply Qle_bool_iff; exact Hlow | lia]. }
  unfold len in *. split.
  - destruct Hstop as [E | [[E _] | [E _]]].
    + left. lia.
    + right. left. lia.
    + right. right. exact E.
  - intros Habove.
    destruct Hstop as [E | [[E Hle] | [Hlow _]]].
    + lia.
    + lia.
    + exfalso. apply (Qlt_not_le _ _ Habove Hlow).
Qed.

Lemma X9_witness :
  exists st,
    regular_amortization 1000 (365 # 10) 1 [10; 20] (2026, 6, 15) 500 600 []
    = Ok st
    /\ (len (schedule st) = 12 * Z.max 1 0
        \/ len (schedule st) = len [10; 20]
        \/ (remaining_balance st <= 500)%Q)
    /\ ((500 < remaining_balance st)%Q ->
        len (schedule st) = Z.min (12 * Z.max 1 0) (len [10; 20])).
Proof.
  destruct (X9_why_the_loops_stop 1000 (365 # 10) 1 [10; 20]
              (2026, 6, 15) 500 600 [] (mkdatetime 2026 6 15))
    as (st & Hrun & _ & Hstop & Hexact).
  - reflexivity.
  - vm_compute. discriminate.
  - exists st. split; [exact Hrun |]. split; assumption.
Defined.

(** X12.  The cap.  For a regular row with balance [b] before it: when
    the installment less the interest is at most [b], the row records
    [b - installment + interest]; when it is more than [b], the row
    records a balance of zero. *)
Theorem X12_cap_rule
    (principal annual_interest_rate : Q) (years : Z) (monthly_days : list Z)
    (start_date : Z * Z * Z) (balloon_payment bill_type : Q)
    (annual_installment_increases : list Q) (start : datetime) :
  strptime start_date = Ok start ->
  toordinal start + 30 * (len monthly_days + 1) <= MAXORDINAL ->
  exists st,
    regular_amortization principal annual_interest_rate years monthly_days
      start_date balloon_payment bill_type annual_installment_increases
    = Ok st
    /\ calculate_stepped_amortization_schedule principal annual_interest_rate
         years monthly_days start_date balloon_payment bill_type
         annual_installment_increases
       = balloon_step annual_interest_rate monthly_days st
    /\ forall k e,
         nth_error (schedule st) k = Some e ->
         let b := balance_before principal (schedule st) k in
         ((r_bill_type e - r_interest e <= b)%Q
          /\ (r_balance e == b - r_bill_type e + r_interest e)%Q)
         \/ ((b < r_bill_type e - r_interest e)%Q
             /\ (r_balance e == 0)%Q).
Proof.
  intros Hstart Hrange.
  destruct (calculate_after_loops principal annual_interest_rate years
              monthly_days start_date balloon_payment bill_type
              annual_installment_increases start Hstart Hrange)
    as (st & Hrun & Hinv & Hcalc).
  destruct Hinv as (Hrows & _).
  exists st. split; [exact Hrun |]. split; [exact Hcalc |].
  intros k e Hk b.
  destruct (rows_ok_nth _ _ _ _ _ _ _ _ _ _ _ Hrows Hk)
    as (days & _ & _ & _ & _ & _ & _ & _ & _ & _ & _ & Hbal & _).
  fold (balance_before principal (schedule st) k) in Hbal. fold b in Hbal.
  unfold capped in Hbal.
  destruct (Qgt_bool (r_bill_type e - r_interest e) b) eqn:E.
  - right. apply Qgt_bool_true in E. split; [exact E |].
    rewrite Hbal. ring.
  - left. split.
    + apply Qnot_lt_le. intros H. apply Qgt_bool_true in H. congruence.
    + rewrite Hbal. ring.
Qed.

Lemma X12_witness :
  exists st,
    regular_amortization 1000 0 1 [30; 30] (2026, 6, 15) 0 600 [] = Ok st
    /\ forall k e,
         nth_error (schedule st) k = Some e ->
         let b := balance_before 1000 (schedule st) k in
         ((r_bill_type e - r_interest e <= b)%Q
          /\ (r_balance e == b - r_bill_type e + r_interest e)%Q)
         \/ ((b < r_bill_type e - r_interest e)%Q
             /\ (r_balance e == 0)%Q).
Proof.
  destruct (X12_cap_rule 1000 0 1 [30; 30] (2026, 6, 15) 0 600 []
              (mkdatetime 2026 6 15)) as (st & Hrun & _ & Hcap).
  - reflexivity.
  - vm_compute. discriminate.
  - exists st. split; [exact Hrun | exact Hcap].
Defined.

(** ** Installments that only go up *)

Section SteppedInstallments.

Variables (bill_type : Q) (annual_installment_increases : list Q).
Hypothesis bill_type_nonneg : (0 <= bill_type)%Q.
Hypothesis increases_nonneg :
  Forall (fun p => (0 <= p)%Q) annual_installment_increases.

Lemma stepped_installment_up (y : nat) :
  (0 <= stepped_installment bill_type annual_installment_increases y)%Q ->
  (stepped_installment bill_type annual_installment_increases y
   <= stepped_installment bill_type annual_installment_increases (S y))%Q.
Proof.
  intros H0.
  destruct (nth_error annual_installment_increases y) as [p |] eqn:Hp.
  - rewrite (stepped_installment_next _ _ y p Hp).
    assert (0 <= p)%Q
      by (apply (proj1 (Forall_forall _ _) increases_nonneg);
          eapply nth_error_In; exact Hp).
    set (x := stepped_installment bill_type annual_installment_increases y)
      in *.
    assert (0 <= x * (p / 100))%Q
      by (apply Qmult_le_0_compat; [exact H0 |];
          apply Qmult_le_0_compat; [assumption | discriminate]).
    lra.
  - apply nth_error_None in Hp.
    rewrite (stepped_installment_last _ _ y Hp). apply Qle_refl.
Qed.

Lemma stepped_installment_step (y : nat) :
  (0 <= stepped_installment bill_type annual_installment_increases y)%Q
  /\ (stepped_installment bill_type annual_installment_increases y
      <= stepped_installment bill_type annual_installment_increases (S y))%Q.
Proof.
  induction y as [| y [IH0 IH1]].
  - split; [exact bill_type_nonneg |].
    apply stepped_installment_up. exact bill_type_nonneg.
  - assert (H0 : (0 <= stepped_installment bill_type
                          annual_installment_increases (S y))%Q)
      by (eapply Qle_trans; eassumption).
    split; [exact H0 | apply stepped_installment_up; exact H0].
Qed.

Lemma stepped_installment_mono (y y' : nat) :
  (y <= y')%nat ->
  (stepped_installment bill_type annual_installment_increases y
   <= stepped_installment bill_type annual_installment_increases y')%Q.
Proof.
  induction 1 as [| y' _ IH].
  - apply Qle_refl.
  - eapply Qle_trans; [exact IH | apply stepped_installment_step].
Qed.

End SteppedInstallments.

(** X11.  With an initial installment and annual increases that are not
    negative, the installment recorded never goes down from one regular
    row to the next, and no regular row records more than the installment
    the loops end with (the one the balloon row records). *)
Theorem X11_installments_never_go_down
    (principal annual_interest_rate : Q) (years : Z) (monthly_days : list Z)
    (start_date : Z * Z * Z) (balloon_payment bill_type : Q)
    (annual_installment_increases : list Q) (start : datetime) :
  strptime start_date = Ok start ->
  toordinal start + 30 * (len monthly_days + 1) <= MAXORDINAL ->
  (0 <= bill_type)%Q ->
  Forall (fun p => (0 <= p)%Q) annual_installment_increases ->
  exists st,
    regular_amortization principal annual_interest_rate years monthly_days
      start_date balloon_payment bill_type annual_installment_increases
    = Ok st
    /\ calculate_stepped_amortization_schedule principal annual_interest_rate
         years monthly_days start_date balloon_payment bill_type
         annual_installment_increases
       = balloon_step annual_interest_rate monthly_days st
    /\ (forall k e e',
          nth_error (schedule st) k = Some e ->
          nth_error (schedule st) (S k) = Some e' ->
          (r_bill_type e <= r_bill_type e')%Q)
    /\ (forall k e,
          nth_error (schedule st) k = Some e ->
          (bill_type <= r_bill_type e)%Q
          /\ (r_bill_type e <= monthly_installment st)%Q).
Proof.
  intros Hstart Hrange Hbill Hincs.
  destruct (calculate_after_loops principal annual_interest_rate years
              monthly_days start_date balloon_payment bill_type
              annual_installment_increases start Hstart Hrange)
    as (st & Hrun & Hinv & Hcalc).
  destruct Hinv as (Hrows & _ & _ & _ & Hinst & _ & Hcount).
  assert (Hrow : forall k e,
             nth_error (schedule st) k = Some e ->
             r_bill_type e
             = stepped_installment bill_type annual_installment_increases
                 (k / 12)).
  { intros k e Hk.
    destruct (rows_ok_nth _ _ _ _ _ _ _ _ _ _ _ Hrows Hk)
      as (days & _ & _ & _ & _ & _ & _ & _ & _ & Hb & _).
    exact Hb. }
  exists st. split; [exact Hrun |]. split; [exact Hcalc |]. split.
  - intros k e e' Hk Hk'. rewrite (Hrow _ _ Hk), (Hrow _ _ Hk').
    apply stepped_installment_mono; try assumption.
    apply Nat.Div0.div_le_mono. lia.
  - intros k e Hk. rewrite (Hrow _ _ Hk), Hinst. split.
    + apply (stepped_installment_mono bill_type _ Hbill Hincs 0 (k / 12)).
      lia.
    + apply stepped_installment_mono; try assumption.
      assert (k < length (schedule st))%nat
        by (apply nth_error_Some; congruence).
      assert (k < 12 * Z.to_nat years)%nat
        by (destruct Hcount as [E | [_ Hle]]; lia).
      apply Nat.lt_le_incl. apply Nat.Div0.div_lt_upper_bound. lia.
Qed.

Lemma X11_witness :
  exists st,
    regular_amortization 1000 12 2 [30; 31; 30] (2026, 6, 15) 500 300
      [5%Q; 10%Q]
    = Ok st
    /\ (forall k e e',
          nth_error (schedule st) k = Some e ->
          nth_error (schedule st) (S k) = Some e' ->
          (r_bill_type e <= r_bill_type e')%Q)
    /\ (forall k e,
          nth_error (schedule st) k = Some e ->
          (300 <= r_bill_type e)%Q
          /\ (r_bill_type e <= monthly_installment st)%Q).
Proof.
  destruct (X11_installments_never_go_down 1000 12 2 [30; 31; 30]
              (2026, 6, 15) 500 300 [5%Q; 10%Q] (mkdatetime 2026 6 15))
    as (st & Hrun & _ & Hnext & Hbounds).
  - reflexivity.
  - vm_compute. discriminate.
  - vm_compute. discriminate.
  - repeat constructor; vm_compute; discriminate.
  - exists st. split; [exact Hrun |]. split; assumption.
Defined.

(** X13.  For a start date that parses and payment dates in range, a
    returned schedule has at most one row per day count, the balloon row
    included, and at most [12 * max(years, 0) + 1] rows. *)
Theorem X13_schedule_length
    (principal annual_interest_rate : Q) (years : Z) (monthly_days : list Z)
    (start_date : Z * Z * Z) (balloon_payment bill_type : Q)
    (annual_installment_increases : list Q) (start : datetime)
    (sched : list row) :
  strptime start_date = Ok start ->
  toordinal start + 30 * (len monthly_days + 1) <= MAXORDINAL ->
  calculate_stepped_amortization_schedule principal annual_interest_rate
    years monthly_days start_date balloon_payment bill_type
    annual_installment_increases
  = Ok sched ->
  len sched <= len monthly_days
  /\ len sched <= 12 * Z.max years 0 + 1.
Proof.
  intros Hstart Hrange.
  destruct (calculate_after_loops principal annual_interest_rate years
              monthly_days start_date balloon_payment bill_type
              annual_installment_increases start Hstart Hrange)
    as (st & _ & Hinv & ->).
  destruct Hinv as (_ & _ & Hpn & _ & _ & Hlen & Hcount).
  assert (Hterm : (length (schedule st) <= 12 * Z.to_nat years)%nat)
    by (destruct Hcount as [E | [_ Hle]]; lia).
  intros Hsched.
  apply balloon_step_returns in Hsched
      as [[_ ->] | [_ (days & Hd & ->)]]; [| | exact Hpn].
  - unfold len. lia.
  - assert (length (schedule st) < length monthly_days)%nat
      by (apply nth_error_Some; congruence).
    unfold len. rewrite length_app. cbn [length]. lia.
Qed.

Lemma X13_witness :
  exists sched,
    calculate_stepped_amortization_schedule 1000 (365 # 10) 1 [10; 20]
      (2026, 6, 15) 500 600 []
    = Ok sched
    /\ len sched <= len [10; 20]
    /\ len sched <= 12 * Z.max 1 0 + 1.
Proof.
  eexists. split; [vm_compute; reflexivity |].
  apply (X13_schedule_length 1000 (365 # 10) 1 [10; 20] (2026, 6, 15)
           500 600 [] (mkdatetime 2026 6 15)).
  - reflexivity.
  - vm_compute. discriminate.
  - vm_compute. reflexivity.
Defined.

(** * Inputs outside the preconditions *)

(** C4 as stated fails for each kind of violation: a principal of -1, a
    day count of 0, an annual rate of -36.5 and an installment of 0 are
    all accepted; nothing is raised, and in the last three cases rows are
    computed from the offending value and returned. *)
Lemma C4_counterexample :
  (~ (0 < -1)%Q
   /\ calculate_stepped_amortization_schedule (-1) 12 1 [30] (2026, 6, 15)
        0 100 []
      = Ok [])
  /\ (~ 0 < 0
      /\ exists e1 e2,
           calculate_stepped_amortization_schedule 1000 12 1 [0; 30]
             (2026, 6, 15) 500 600 []
           = Ok [e1; e2]
           /\ (r_interest e1 == 0)%Q
           /\ (r_balance e1 == 400)%Q)
  /\ (~ (0 <= - (365 # 10))%Q
      /\ exists e1 e2,
           calculate_stepped_amortization_schedule 1000 (- (365 # 10)) 1
             [10; 20] (2026, 6, 15) 500 600 []
           = Ok [e1; e2]
           /\ (r_interest e1 == -10)%Q
           /\ (r_balance e1 == 390)%Q
           /\ (r_interest e2 == - (78 # 10))%Q)
  /\ (~ (0 < 0)%Q
      /\ exists e,
           calculate_stepped_amortization_schedule 1000 12 1 [30]
             (2026, 6, 15) 2000 0 []
           = Ok [e]
           /\ r_bill_type e = 0%Q
           /\ r_balance e = 0%Q).
Proof.
  split; [| split; [| split]].
  - split; [intros H; vm_compute in H; discriminate H |].
    vm_compute. reflexivity.
  - split; [lia |]. do 2 eexists. split; [vm_compute; reflexivity |].
    split; reflexivity.
  - split; [intros H; vm_compute in H; apply H; reflexivity |].
    do 2 eexists. split; [vm_compute; reflexivity |].
    split; [reflexivity |]. split; reflexivity.
  - split; [intros H; vm_compute in H; discriminate H |].
    eexists. split; [vm_compute; reflexivity |].
    split; reflexivity.
Qed.

(** When the principal is above the threshold, the term has a year and
    there is a day count, the loops append a first row, computed from the
    principal, the initial installment and that day count as they are. *)
Lemma first_regular_row
    (principal annual_interest_rate : Q) (years : Z) (monthly_days : list Z)
    (start : datetime) (balloon_payment bill_type : Q)
    (annual_installment_increases : list Q) (st : state) (days : Z) :
  loop_inv principal annual_interest_rate monthly_days start
    balloon_payment bill_type annual_installment_increases
    (Z.to_nat years) 0 st ->
  (balloon_payment < principal)%Q ->
  1 <= years ->
  nth_error monthly_days 0 = Some days ->
  exists e,
    nth_error (schedule st) 0 = Some e
    /\ r_bill_type e = bill_type
    /\ r_interest e = (principal * period_rate annual_interest_rate days)%Q
    /\ r_balance e
       = (principal
          - capped principal bill_type
              (principal * period_rate annual_interest_rate days))%Q.
Proof.
  intros (Hrows & Hbal & Hpn & _ & _ & _ & Hcount) Habove Hyears Hdays.
  destruct (schedule st) as [| e rows] eqn:Hsched.
  - exfalso. cbn [length] in Hcount. unfold last_balance in Hbal.
    cbn [rev] in Hbal.
    destruct Hcount as [E | [[Hend | Hlow] _]].
    + lia.
    + apply Z.gtb_lt in Hend. rewrite Hpn in Hend.
      assert (0 < length monthly_days)%nat
        by (apply nth_error_Some; congruence).
      unfold len in Hend. cbn [length] in Hend. lia.
    + rewrite Hbal in Hlow. apply Qle_bool_iff in Hlow.
      apply (Qlt_not_le _ _ Habove Hlow).
  - destruct Hrows as [(d & Hd & _ & _ & _ & _ & _ & _ & _ & Hbill & Hint
                         & Hrow & _) _].
    assert (d = days) by congruence. subst d.
    exists e. split; [reflexivity |].
    assert (Hb : r_bill_type e = bill_type) by exact Hbill.
    split; [exact Hb |]. split; [exact Hint |].
    rewrite Hrow, Hint, Hb. reflexivity.
Qed.

(** C4, amended.  No precondition is checked and nothing is rejected:
    whatever the signs of the principal, the rate, the day counts and the
    installment, and whether or not there is a day count, the loops run
    to their end, every regular row is computed from the arguments as
    they are (interest = balance before * rate / 100 * day count / 365,
    balance = balance before less the capped installment part), and the
    function then returns a schedule or raises the [IndexError] of the
    balloon step.  In particular: a principal neither positive nor above
    the threshold gives the empty schedule; an empty [monthly_days] gives
    no regular row, the empty schedule for a principal that is not
    positive and the [IndexError] for a positive one; and with a principal
    above the threshold, a term of a year or more and a first day count,
    the first row is there, computed from that day count, the rate and
    the initial installment whatever their signs. *)
Theorem C4_violations_are_processed
    (principal annual_interest_rate : Q) (years : Z) (monthly_days : list Z)
    (start_date : Z * Z * Z) (balloon_payment bill_type : Q)
    (annual_installment_increases : list Q) (start : datetime) :
  strptime start_date = Ok start ->
  toordinal start + 30 * (len monthly_days + 1) <= MAXORDINAL ->
  exists st,
    regular_amortization principal annual_interest_rate years monthly_days
      start_date balloon_payment bill_type annual_installment_increases
    = Ok st
    /\ ((exists sched,
           calculate_stepped_amortization_schedule principal
             annual_interest_rate years monthly_days start_date
             balloon_payment bill_type annual_installment_increases
           = Ok sched)
        \/ calculate_stepped_amortization_schedule principal
             annual_interest_rate years monthly_days start_date
             balloon_payment bill_type annual_installment_increases
           = Raise IndexError)
    /\ (forall k e,
          nth_error (schedule st) k = Some e ->
          exists days,
            nth_error monthly_days k = Some days
            /\ r_interest e
               = (balance_before principal (schedule st) k
                  * (annual_interest_rate / 100 * (inject_Z days / 365)))%Q
            /\ r_balance e
               = (balance_before principal (schedule st) k
                  - capped (balance_before principal (schedule st) k)
                      (r_bill_type e) (r_interest e))%Q)
    /\ ((principal <= 0)%Q -> (principal <= balloon_payment)%Q ->
        calculate_stepped_amortization_schedule principal
          annual_interest_rate years monthly_days start_date
          balloon_payment bill_type annual_installment_increases
        = Ok [])
    /\ (monthly_days = [] ->
        schedule st = []
        /\ ((principal <= 0)%Q ->
            calculate_stepped_amortization_schedule principal
              annual_interest_rate years monthly_days start_date
              balloon_payment bill_type annual_installment_increases
            = Ok [])
        /\ ((0 < principal)%Q ->
            calculate_stepped_amortization_schedule principal
              annual_interest_rate years monthly_days start_date
              balloon_payment bill_type annual_installment_increases
            = Raise IndexError))
    /\ ((balloon_payment < principal)%Q -> 1 <= years ->
        forall days,
          nth_error monthly_days 0 = Some days ->
          exists e,
            nth_error (schedule st) 0 = Some e
            /\ r_bill_type e = bill_type
            /\ r_interest e
               = (principal
                  * (annual_interest_rate / 100 * (inject_Z days / 365)))%Q
            /\ r_balance e
               = (principal
                  - capped principal bill_type
                      (principal
                       * (annual_interest_rate / 100
                          * (inject_Z days / 365))))%Q).
Proof.
  intros Hstart Hrange.
  destruct (calculate_after_loops principal annual_interest_rate years
              monthly_days start_date balloon_payment bill_type
              annual_installment_increases start Hstart Hrange)
    as (st & Hrun & Hinv & Hcalc).
  pose proof Hinv as (Hrows & Hbal & Hpn & _ & _ & Hlen & _).
  rewrite Hcalc.
  assert (Hnonpos : (remaining_balance st <= 0)%Q ->
                    balloon_step annual_interest_rate monthly_days st
                    = Ok (schedule st)).
  { intros Hle. unfold balloon_step.
    destruct (Qgt_bool (remaining_balance st) 0) eqn:E; [| reflexivity].
    apply Qgt_bool_true in E. exfalso. apply (Qlt_not_le _ _ E Hle). }
  exists st. split; [exact Hrun |].
  split; [| split; [| split; [| split]]].
  - destruct (Qlt_le_dec 0 (remaining_balance st)) as [Hpos | Hle].
    + destruct (nth_error monthly_days (length (schedule st)))
        as [days |] eqn:Hdays.
      * left. eexists. apply balloon_step_appends; eassumption.
      * right. apply nth_error_None in Hdays.
        apply balloon_step_past_end; [exact Hpos | exact Hpn | lia].
    + left. eexists. apply Hnonpos. exact Hle.
  - intros k e Hk.
    destruct (rows_ok_nth _ _ _ _ _ _ _ _ _ _ _ Hrows Hk)
      as (days & Hd & _ & _ & _ & _ & _ & _ & _ & _ & Hint & Hrow & _).
    exists days. split; [exact Hd |]. split; [exact Hint | exact Hrow].
  - intros Hle Hbelow.
    assert (Hnone : schedule st = []).
    { destruct (schedule st) as [| e0 rows]; [reflexivity |].
      destruct Hrows as [(d & H) _].
      decompose [and] H.
      apply Qle_bool_iff in Hbelow. congruence. }
    rewrite Hnonpos; [rewrite Hnone; reflexivity |].
    rewrite Hbal, Hnone. exact Hle.
  - intros ->.
    assert (Hnone : schedule st = []).
    { destruct (schedule st); [reflexivity | cbn [length] in Hlen; lia]. }
    split; [exact Hnone |]. split.
    + intros Hle. rewrite Hnonpos; [rewrite Hnone; reflexivity |].
      rewrite Hbal, Hnone. exact Hle.
    + intros Hpos. apply balloon_step_past_end.
      * rewrite Hbal, Hnone. exact Hpos.
      * exact Hpn.
      * rewrite Hnone. reflexivity.
  - intros Habove Hyears days Hdays.
    apply (first_regular_row _ _ _ _ _ _ _ _ _ _ Hinv Habove Hyears Hdays).
Qed.

Lemma C4_witness :
  exists st,
    regular_amortization 1000 (- (365 # 10)) 1 [10; 0] (2026, 6, 15) 500 (-5)
      []
    = Ok st
    /\ exists e,
         nth_error (schedule st) 0 = Some e
         /\ r_bill_type e = (-5)%Q
         /\ r_interest e
            = (1000 * (- (365 # 10) / 100 * (inject_Z 10 / 365)))%Q
         /\ r_balance e
            = (1000
               - capped 1000 (-5)
                   (1000 * (- (365 # 10) / 100 * (inject_Z 10 / 365))))%Q.
Proof.
  destruct (C4_violations_are_processed 1000 (- (365 # 10)) 1 [10; 0]
              (2026, 6, 15) 500 (-5) [] (mkdatetime 2026 6 15))
    as (st & Hrun & _ & _ & _ & _ & Hfirst).
  - reflexivity.
  - vm_compute. discriminate.
  - exists st. split; [exact Hrun |].
    apply Hfirst.
    + reflexivity.
    + lia.
    + reflexivity.
Defined.
